(** * ESP32 Soil Sentinel: a shallow embedding of the firmware sketch

    The sketch [code/ESP32-Soil-Sentinel.ino] is one polling loop over a
    handful of global variables.  It is embedded here as functions in a
    small state-and-fault monad:

    - the global variables of the sketch are the record [Globals];
    - every call that acts on the outside world (display, serial port,
      radio, cloud client, [delay]) is recorded as an [Event] of the
      trace, newest event first;
    - every call that reads the outside world ([millis], [digitalRead],
      [analogRead], the DHT sensor, [WiFi.status], the result of
      [ThingSpeak.writeFields]) takes its answer from an environment
      [Env], indexed by the number of reads made so far;
    - behaviour that C++ leaves undefined (remainder by zero, signed
      overflow, indexing outside the profile table) is a [Fault].

    The clock belongs to the environment: [millis] may answer any 32-bit
    value at any read, and nothing is assumed about how its readings
    relate to the [delay]s on the trace.

    Integer widths are those of the ESP32 toolchain: [int], [long] and
    [unsigned long] are 32 bits wide. *)

From Stdlib Require Import ZArith List String Bool Lia.
Import ListNotations.
Open Scope string_scope.
Open Scope list_scope.
Open Scope Z_scope.

(** ** Machine integers *)

Module Int32.

Definition modulus : Z := 2 ^ 32.
Definition INT_MIN : Z := - 2 ^ 31.
Definition INT_MAX : Z := 2 ^ 31 - 1.

(** Conversion to [unsigned long]: reduction modulo 2^32. *)
Definition to_unsigned (z : Z) : Z := z mod modulus.

(** Conversion to [long] / [int]: the two's complement reading of the
    low 32 bits. *)
Definition to_signed (z : Z) : Z := (z + 2 ^ 31) mod modulus - 2 ^ 31.

Definition in_int (z : Z) : bool := (INT_MIN <=? z) && (z <=? INT_MAX).

End Int32.

(** ** Floats

    A [float] is kept as its IEEE-754 binary32 bit pattern.  The sketch
    only tests readings with [isnan] and hands them on to be printed. *)

Module Float32.

Definition exponent (bits : Z) : Z := Z.land (Z.shiftr bits 23) 255.
Definition fraction (bits : Z) : Z := Z.land bits 8388607.

Definition isnan (bits : Z) : bool :=
  (exponent bits =? 255) && negb (fraction bits =? 0).

(** The quiet NaN that the DHT library returns on a failed read. *)
Definition NAN : Z := 2143289344.

End Float32.

(** ** Data model *)

(** Values of the Arduino [String] class.  Literals are kept as they
    are; the number-to-text conversions [String(int)] and
    [String(float, decimals)] stay symbolic. *)
Inductive text : Type :=
| Lit (s : string)
| OfInt (z : Z)
| OfFloat (bits : Z) (decimals : Z)
| Cat (a b : text).

Declare Scope text_scope.
Delimit Scope text_scope with text.
Bind Scope text_scope with text.
Infix "+++" := Cat (at level 50, left associativity) : text_scope.
Coercion Lit : string >-> text.

Record PlantProfile : Type := {
  name : string;
  drySoilMoisture : Z;
  wetSoilMoisture : Z;
  channelID : Z;
  apiKey : string
}.

(** The global variables of the sketch.  [plantProfiles] and [numPlants]
    are ordinary (non-const) globals in the source, so they are part of
    the mutable state here too. *)
Record Globals : Type := {
  plantProfiles : list PlantProfile;
  numPlants : Z;
  selectedPlantIndex : Z;
  plantWasChosen : bool;
  calibrationMode : bool;
  lastConnectionTime : Z
}.

Definition postingInterval : Z := 30000.

(** Pin assignments. *)
Definition SOIL_SENSOR_PIN : Z := 34.
Definition DHT_PIN : Z := 25.
Definition BUTTON_UP_PIN : Z := 13.
Definition BUTTON_DOWN_PIN : Z := 12.
Definition BUTTON_SELECT_PIN : Z := 14.

Definition ssid : string := "".
Definition password : string := "".

Inductive level : Type := LOW | HIGH.

Definition level_eqb (a b : level) : bool :=
  match a, b with
  | LOW, LOW | HIGH, HIGH => true
  | _, _ => false
  end.

(** [wl_status_t] of the WiFi library. *)
Inductive wl_status_t : Type :=
| WL_NO_SHIELD
| WL_IDLE_STATUS
| WL_NO_SSID_AVAIL
| WL_SCAN_COMPLETED
| WL_CONNECTED
| WL_CONNECT_FAILED
| WL_CONNECTION_LOST
| WL_DISCONNECTED.

Definition is_connected (s : wl_status_t) : bool :=
  match s with
  | WL_CONNECTED => true
  | _ => false
  end.

Inductive number : Type :=
| NInt (z : Z)
| NFloat (bits : Z).

(** What the sketch does to the outside world. *)
Inductive Event : Type :=
| SerialBegin (baud : Z)
| SerialPrintln (s : text)
| LcdInit
| LcdBacklight
| LcdClear
| LcdSetCursor (col row : Z)
| LcdPrint (s : text)
| PinModeInputPullup (pin : Z)
| Delay (ms : Z)
| DhtBegin
| WiFiBegin (id pw : string)
| ThingSpeakBegin
| ThingSpeakSetField (field : Z) (v : number)
| ThingSpeakSetStatus (s : text)
| ThingSpeakWriteFields (channel : Z) (key : string).

(** What the outside world answers; the [nat] is the number of reads the
    program has made before this one. *)
Record Env : Type := {
  millis_at : nat -> Z;
  digitalRead_at : nat -> Z -> level;
  analogRead_at : nat -> Z -> Z;
  readTemperature_at : nat -> Z;
  readHumidity_at : nat -> Z;
  status_at : nat -> wl_status_t;
  writeFields_at : nat -> Z
}.

Record World : Type := {
  vars : Globals;
  trace : list Event;
  reads : nat
}.

(** ** The monad *)

Inductive fault : Type :=
| DivideByZero
| SignedOverflow
| IndexOutOfRange
| OutOfFuel.

Inductive result (A : Type) : Type :=
| Ok (a : A) (w : World)
| Fault (f : fault).

Arguments Ok {A} a w.
Arguments Fault {A} f.

Definition M (A : Type) : Type := Env -> World -> result A.

Definition ret {A} (a : A) : M A := fun _ w => Ok a w.

Definition bind {A B} (m : M A) (k : A -> M B) : M B :=
  fun env w =>
    match m env w with
    | Ok a w' => k a env w'
    | Fault f => Fault f
    end.

Definition fail {A} (f : fault) : M A := fun _ _ => Fault f.

Declare Scope sketch_scope.
Delimit Scope sketch_scope with sketch.
Notation "x <- m ;; k" := (bind m (fun x => k))
  (at level 61, m at next level, right associativity) : sketch_scope.
Notation "m ;; k" := (bind m (fun _ => k))
  (at level 61, right associativity) : sketch_scope.
Open Scope sketch_scope.

Definition emit (e : Event) : M unit :=
  fun _ w => Ok tt {| vars := vars w; trace := e :: trace w; reads := reads w |}.

Definition input {A} (answer : Env -> nat -> A) : M A :=
  fun env w =>
    Ok (answer env (reads w))
       {| vars := vars w; trace := trace w; reads := S (reads w) |}.

Definition gets {A} (f : Globals -> A) : M A := fun _ w => Ok (f (vars w)) w.

Definition modify (f : Globals -> Globals) : M unit :=
  fun _ w => Ok tt {| vars := f (vars w); trace := trace w; reads := reads w |}.

Definition when (b : bool) (m : M unit) : M unit := if b then m else ret tt.

(** ** C++ arithmetic and the calls into the Arduino libraries *)

(** [a + b] on [int]: overflow is undefined behaviour. *)
Definition int_add (a b : Z) : M Z :=
  if Int32.in_int (a + b) then ret (a + b) else fail SignedOverflow.

Definition int_sub (a b : Z) : M Z :=
  if Int32.in_int (a - b) then ret (a - b) else fail SignedOverflow.

Definition int_neg (a : Z) : M Z :=
  if Int32.in_int (- a) then ret (- a) else fail SignedOverflow.

(** [a % b] on [int]: truncating remainder, undefined for [b = 0] and for
    [INT_MIN % -1]. *)
Definition int_rem (a b : Z) : M Z :=
  if b =? 0 then fail DivideByZero
  else if (a =? Int32.INT_MIN) && (b =? -1) then fail SignedOverflow
  else ret (Z.rem a b).

(** [plantProfiles[i]]. *)
Definition plantProfiles_at (i : Z) : M PlantProfile :=
  ps <- gets plantProfiles ;;
  if i <? 0 then fail IndexOutOfRange
  else match nth_error ps (Z.to_nat i) with
       | Some p => ret p
       | None => fail IndexOutOfRange
       end.

Definition set_selectedPlantIndex (i : Z) (g : Globals) : Globals :=
  {| plantProfiles := plantProfiles g; numPlants := numPlants g;
     selectedPlantIndex := i; plantWasChosen := plantWasChosen g;
     calibrationMode := calibrationMode g;
     lastConnectionTime := lastConnectionTime g |}.

Definition set_plantWasChosen (b : bool) (g : Globals) : Globals :=
  {| plantProfiles := plantProfiles g; numPlants := numPlants g;
     selectedPlantIndex := selectedPlantIndex g; plantWasChosen := b;
     calibrationMode := calibrationMode g;
     lastConnectionTime := lastConnectionTime g |}.

Definition set_calibrationMode (b : bool) (g : Globals) : Globals :=
  {| plantProfiles := plantProfiles g; numPlants := numPlants g;
     selectedPlantIndex := selectedPlantIndex g;
     plantWasChosen := plantWasChosen g; calibrationMode := b;
     lastConnectionTime := lastConnectionTime g |}.

Definition set_lastConnectionTime (t : Z) (g : Globals) : Globals :=
  {| plantProfiles := plantProfiles g; numPlants := numPlants g;
     selectedPlantIndex := selectedPlantIndex g;
     plantWasChosen := plantWasChosen g;
     calibrationMode := calibrationMode g; lastConnectionTime := t |}.

(** [millis()] returns an [unsigned long]. *)
Definition millis : M Z :=
  t <- input millis_at ;; ret (Int32.to_unsigned t).

Definition digitalRead (pin : Z) : M level :=
  input (fun env k => digitalRead_at env k pin).

Definition analogRead (pin : Z) : M Z :=
  v <- input (fun env k => analogRead_at env k pin) ;;
  ret (Int32.to_signed v).

Definition delay (ms : Z) : M unit := emit (Delay ms).

Definition lcd_clear : M unit := emit LcdClear.
Definition lcd_setCursor (col row : Z) : M unit := emit (LcdSetCursor col row).
Definition lcd_print (s : text) : M unit := emit (LcdPrint s).
Definition Serial_println (s : text) : M unit := emit (SerialPrintln s).

Definition dht_readTemperature : M Z := input readTemperature_at.
Definition dht_readHumidity : M Z := input readHumidity_at.

Definition WiFi_status : M wl_status_t := input status_at.
Definition WiFi_begin (id pw : string) : M unit := emit (WiFiBegin id pw).

Definition ThingSpeak_setField (field : Z) (v : number) : M unit :=
  emit (ThingSpeakSetField field v).
Definition ThingSpeak_setStatus (s : text) : M unit :=
  emit (ThingSpeakSetStatus s).

(** One synchronous HTTP write; the answer is the HTTP status code. *)
Definition ThingSpeak_writeFields (channel : Z) (key : string) : M Z :=
  emit (ThingSpeakWriteFields channel key) ;;
  code <- input writeFields_at ;;
  ret (Int32.to_signed code).

(** ** The sketch *)

(** The [while] loop of [connectWiFi].  [fuel] bounds the unfolding of
    the loop; [connectWiFi_wait_returns] below shows that 20 is enough. *)
Fixpoint connectWiFi_wait (fuel : nat) (attempts : Z) : M unit :=
  st <- WiFi_status ;;
  if negb (is_connected st) && (attempts <? 20) then
    match fuel with
    | O => fail OutOfFuel
    | S fuel' =>
        lcd_print "." ;;
        delay 500 ;;
        attempts' <- int_add attempts 1 ;;
        connectWiFi_wait fuel' attempts'
    end
  else ret tt.

Definition connectWiFi : M unit :=
  st <- WiFi_status ;;
  if is_connected st then ret tt
  else
    WiFi_begin ssid password ;;
    lcd_clear ;;
    lcd_setCursor 0 0 ;;
    lcd_print "Connecting WiFi" ;;
    connectWiFi_wait 20 0 ;;
    lcd_clear ;;
    lcd_setCursor 0 0 ;;
    st' <- WiFi_status ;;
    (if is_connected st' then lcd_print "Connected!"
     else lcd_print "Connection failed") ;;
    delay 1000 ;;
    lcd_clear.

Definition runCalibrationMode : M unit :=
  sensorValue <- analogRead SOIL_SENSOR_PIN ;;
  lcd_setCursor 0 1 ;;
  lcd_print "Value: " ;;
  lcd_print (OfInt sensorValue) ;;
  lcd_print "   " ;;
  Serial_println ("Calibration Value: " +++ OfInt sensorValue) ;;
  delay 250.

(** Handle UP button - cycle forward through plants. *)
Definition handleUp : M unit :=
  i <- gets selectedPlantIndex ;;
  n <- gets numPlants ;;
  s <- int_add i 1 ;;
  r <- int_rem s n ;;
  modify (set_selectedPlantIndex r) ;;
  delay 200.

(** Handle DOWN button - cycle backward through plants. *)
Definition handleDown : M unit :=
  i <- gets selectedPlantIndex ;;
  n <- gets numPlants ;;
  d <- int_sub i 1 ;;
  s <- int_add d n ;;
  r <- int_rem s n ;;
  modify (set_selectedPlantIndex r) ;;
  delay 200.

(** Handle SELECT button - confirm plant choice. *)
Definition handleSelect : M unit :=
  modify (set_plantWasChosen true) ;;
  lcd_clear ;;
  lcd_print "Monitoring:" ;;
  lcd_setCursor 0 1 ;;
  i <- gets selectedPlantIndex ;;
  p <- plantProfiles_at i ;;
  lcd_print (name p) ;;
  delay 2000 ;;
  t <- int_neg postingInterval ;;
  modify (set_lastConnectionTime t).

Definition selectionScreen : M unit :=
  lcd_setCursor 0 0 ;;
  i <- gets selectedPlantIndex ;;
  p <- plantProfiles_at i ;;
  lcd_print ("Plant: " +++ name p +++ " ") ;;
  lcd_setCursor 0 1 ;;
  lcd_print "< UP/DOWN >" ;;
  up <- digitalRead BUTTON_UP_PIN ;;
  when (level_eqb up LOW) handleUp ;;
  down <- digitalRead BUTTON_DOWN_PIN ;;
  when (level_eqb down LOW) handleDown ;;
  sel <- digitalRead BUTTON_SELECT_PIN ;;
  when (level_eqb sel LOW) handleSelect.

(** The soil analysis of [monitoringAndSendingScreen] (the [if] chain
    that assigns [soilStatus]). *)
Definition soilStatus (soilMoistureValue : Z) (currentProfile : PlantProfile)
  : string :=
  if soilMoistureValue >? drySoilMoisture currentProfile then "Water the soil"
  else if soilMoistureValue <? wetSoilMoisture currentProfile then "Soil too wet"
  else "Ideal soil".

Definition monitoringAndSendingScreen : M unit :=
  now <- millis ;;
  modify (set_lastConnectionTime (Int32.to_signed now)) ;;
  st <- WiFi_status ;;
  when (negb (is_connected st)) connectWiFi ;;
  i <- gets selectedPlantIndex ;;
  currentProfile <- plantProfiles_at i ;;
  soilMoistureValue <- analogRead SOIL_SENSOR_PIN ;;
  temperature <- dht_readTemperature ;;
  airHumidity <- dht_readHumidity ;;
  if Float32.isnan temperature || Float32.isnan airHumidity then
    Serial_println "Error reading from DHT sensor!"
  else
    let status := soilStatus soilMoistureValue currentProfile in
    lcd_clear ;;
    lcd_setCursor 0 0 ;;
    lcd_print ("T:" +++ OfFloat temperature 1 +++ "C H:"
               +++ OfFloat airHumidity 1 +++ "%") ;;
    lcd_setCursor 0 1 ;;
    lcd_print status ;;
    ThingSpeak_setField 1 (NFloat temperature) ;;
    ThingSpeak_setField 2 (NInt soilMoistureValue) ;;
    ThingSpeak_setField 3 (NFloat airHumidity) ;;
    ThingSpeak_setStatus
      ("Plant: " +++ name currentProfile +++ " - " +++ status) ;;
    httpCode <- ThingSpeak_writeFields (channelID currentProfile)
                                       (apiKey currentProfile) ;;
    if httpCode =? 200 then
      Serial_println ("Data sent to channel: " +++ name currentProfile)
    else
      Serial_println ("Error sending data. HTTP Code: " +++ OfInt httpCode).

(** [millis() - lastConnectionTime > postingInterval]: the operands are
    [unsigned long], [long] and [const long]; the usual arithmetic
    conversions make both the subtraction and the comparison unsigned. *)
Definition elapsed (now last : Z) : Z :=
  Int32.to_unsigned (now - Int32.to_unsigned last).

Definition postingDue (now last : Z) : bool :=
  elapsed now last >? Int32.to_unsigned postingInterval.

(** Allow user to return to plant selection: the body of the last [if]
    of [loop]. *)
Definition returnToSelection : M unit :=
  modify (set_plantWasChosen false) ;;
  lcd_clear ;;
  lcd_print "Select the" ;;
  lcd_setCursor 0 1 ;;
  lcd_print "plant:" ;;
  delay 500.

Definition loop : M unit :=
  cal <- gets calibrationMode ;;
  if cal then runCalibrationMode
  else
    chosen <- gets plantWasChosen ;;
    if negb chosen then selectionScreen
    else
      now <- millis ;;
      last <- gets lastConnectionTime ;;
      when (postingDue now last) monitoringAndSendingScreen ;;
      sel <- digitalRead BUTTON_SELECT_PIN ;;
      when (level_eqb sel LOW) returnToSelection.

Definition setup : M unit :=
  emit (SerialBegin 115200) ;;
  emit LcdInit ;;
  emit LcdBacklight ;;
  emit (PinModeInputPullup BUTTON_UP_PIN) ;;
  emit (PinModeInputPullup BUTTON_DOWN_PIN) ;;
  emit (PinModeInputPullup BUTTON_SELECT_PIN) ;;
  lcd_setCursor 0 0 ;;
  lcd_print "Starting..." ;;
  delay 1000 ;;
  sel <- digitalRead BUTTON_SELECT_PIN ;;
  if level_eqb sel LOW then
    modify (set_calibrationMode true) ;;
    lcd_clear ;;
    lcd_setCursor 0 0 ;;
    lcd_print "Calibration Mode"
  else
    modify (set_calibrationMode false) ;;
    emit DhtBegin ;;
    connectWiFi ;;
    emit ThingSpeakBegin ;;
    lcd_print "Select the" ;;
    lcd_setCursor 0 1 ;;
    lcd_print "plant:" ;;
    delay 2000.

(** The values of the globals when [setup] starts, for a given profile
    table: [numPlants] is [sizeof(plantProfiles) / sizeof(PlantProfile)]
    converted to [int]. *)
Definition initial_globals (profiles : list PlantProfile) : Globals :=
  {| plantProfiles := profiles;
     numPlants := Int32.to_signed (Z.of_nat (List.length profiles));
     selectedPlantIndex := 0;
     plantWasChosen := false;
     calibrationMode := false;
     lastConnectionTime := 0 |}.

Definition boot (profiles : list PlantProfile) : World :=
  {| vars := initial_globals profiles; trace := []; reads := 0 |}.

(** [setup] once, then [loop] [n] times. *)
Fixpoint loops (n : nat) : M unit :=
  match n with
  | O => ret tt
  | S n' => loop ;; loops n'
  end.

Definition run (n : nat) : M unit := setup ;; loops n.

(** ** Observations on traces and states *)

Definition is_lcd (e : Event) : bool :=
  match e with
  | LcdInit | LcdBacklight | LcdClear | LcdSetCursor _ _ | LcdPrint _ => true
  | _ => false
  end.

Definition is_log (e : Event) : bool :=
  match e with
  | SerialPrintln _ => true
  | _ => false
  end.

(** The HTTP write to the cloud channel. *)
Definition is_post (e : Event) : bool :=
  match e with
  | ThingSpeakWriteFields _ _ => true
  | _ => false
  end.

Definition is_cloud (e : Event) : bool :=
  match e with
  | ThingSpeakBegin | ThingSpeakSetField _ _ | ThingSpeakSetStatus _
  | ThingSpeakWriteFields _ _ => true
  | _ => false
  end.

Definition count (f : Event -> bool) (tr : list Event) : nat :=
  List.length (filter f tr).

(** Milliseconds spent in [delay] over a stretch of trace. *)
Fixpoint delay_total (tr : list Event) : Z :=
  match tr with
  | [] => 0
  | Delay ms :: tr' => ms + delay_total tr'
  | _ :: tr' => delay_total tr'
  end.

(** The events added between world [w] and a later world [w'], newest
    first. *)
Definition since (w w' : World) : list Event :=
  firstn (List.length (trace w') - List.length (trace w)) (trace w').

(** The three modes of the controller, read off the two flags. *)
Inductive Mode : Type := Calibration | Selecting | Monitoring.

Definition mode (g : Globals) : Mode :=
  if calibrationMode g then Calibration
  else if plantWasChosen g then Monitoring
  else Selecting.

(** The profile table is as [numPlants] says, is not empty, and is small
    enough for [selectedPlantIndex - 1 + numPlants] to stay an [int] (a
    table of 2^30 records does not fit the 32-bit address space). *)
Definition table_ok (g : Globals) : Prop :=
  numPlants g = Z.of_nat (List.length (plantProfiles g)) /\
  1 <= numPlants g <= 2 ^ 30.

Definition index_ok (g : Globals) : Prop :=
  0 <= selectedPlantIndex g < numPlants g.

(** The profile that [plantProfiles[selectedPlantIndex]] denotes. *)
Definition selected_profile (g : Globals) : option PlantProfile :=
  nth_error (plantProfiles g) (Z.to_nat (selectedPlantIndex g)).

(** The name of that profile, as [handleSelect] prints it. *)
Definition selected_name (g : Globals) : string :=
  match selected_profile g with
  | Some p => name p
  | None => ""
  end.

(** ** The WiFi connection handler, run

    From here on the definitions are not part of the sketch: they spell
    out, as plain functions of the environment and of the world a
    function of the sketch is entered in, the world that it returns.
    The lemmas named [..._run] in the second part prove that the sketch
    returns exactly these worlds. *)

(** What the retry loop leaves on the trace after [k] failed polls. *)
Fixpoint waiting (k : nat) : list Event :=
  match k with
  | O => []
  | S k' => Delay 500 :: LcdPrint "." :: waiting k'
  end.

(** The number of polls, out of at most [n] starting with read number
    [k], that come before the first one answering [WL_CONNECTED]. *)
Fixpoint failed_polls (env : Env) (k n : nat) : nat :=
  match n with
  | O => O
  | S n' =>
      if is_connected (status_at env k) then O
      else S (failed_polls env (S k) n')
  end.

(** The text that [connectWiFi] puts on the display once the loop is
    over, from the status it polls then. *)
Definition connectWiFi_report (st : wl_status_t) : text :=
  if is_connected st then Lit "Connected!" else Lit "Connection failed".

(** The events of a connection attempt with [j] waits, newest first. *)
Definition connectWiFi_events (j : nat) (report : text) : list Event :=
  LcdClear :: Delay 1000 :: LcdPrint report :: LcdSetCursor 0 0 :: LcdClear
  :: waiting j
  ++ [LcdPrint "Connecting WiFi"; LcdSetCursor 0 0; LcdClear;
      WiFiBegin ssid password].

(** The world that [connectWiFi] returns. *)
Definition connectWiFi_world (env : Env) (w : World) : World :=
  if is_connected (status_at env (reads w)) then
    {| vars := vars w; trace := trace w; reads := S (reads w) |}
  else
    let j := failed_polls env (S (reads w)) 20 in
    let last_poll := S (j + S (reads w)) in
    {| vars := vars w;
       trace := connectWiFi_events j
                  (connectWiFi_report (status_at env last_poll))
                ++ trace w;
       reads := S last_poll |}.

(** ** The selection screen, run *)

Definition pressed (env : Env) (k : nat) (pin : Z) : bool :=
  level_eqb (digitalRead_at env k pin) LOW.

(** The index after the UP handler and after the DOWN handler, as the
    wrap-around of the menu describes them. *)
Definition next_index (i n : Z) : Z := (i + 1) mod n.
Definition prev_index (i n : Z) : Z := (i - 1 + n) mod n.

(** The globals after one pass of [selectionScreen] entered at read
    number [reads w]: UP is read first, then DOWN, then SELECT. *)
Definition selection_vars (env : Env) (w : World) : Globals :=
  let g := vars w in
  let n := numPlants g in
  let i0 := selectedPlantIndex g in
  let i1 := if pressed env (reads w) BUTTON_UP_PIN
            then next_index i0 n else i0 in
  let i2 := if pressed env (S (reads w)) BUTTON_DOWN_PIN
            then prev_index i1 n else i1 in
  let g2 := set_selectedPlantIndex i2 g in
  if pressed env (S (S (reads w))) BUTTON_SELECT_PIN
  then set_lastConnectionTime (- postingInterval) (set_plantWasChosen true g2)
  else g2.

(** ** A monitoring cycle, run *)

(** The world of [monitoringAndSendingScreen] once it has read the clock,
    stored it in [lastConnectionTime] and polled the WiFi status. *)
Definition monitoring_start (env : Env) (w : World) : World :=
  {| vars := set_lastConnectionTime
               (Int32.to_signed (Int32.to_unsigned (millis_at env (reads w))))
               (vars w);
     trace := trace w;
     reads := S (S (reads w)) |}.

(** The events of a call of [connectWiFi] entered in world [w]. *)
Definition wifi_events (env : Env) (w : World) : list Event :=
  if is_connected (status_at env (reads w)) then []
  else
    let j := failed_polls env (S (reads w)) 20 in
    connectWiFi_events j
      (connectWiFi_report (status_at env (S (j + S (reads w))))).

(** The events of the WiFi check that opens a monitoring cycle. *)
Definition reconnect_events (env : Env) (w : World) : list Event :=
  if is_connected (status_at env (S (reads w))) then []
  else wifi_events env (monitoring_start env w).

(** The world in which the cycle reads its sensors. *)
Definition after_wifi (env : Env) (w : World) : World :=
  if is_connected (status_at env (S (reads w))) then monitoring_start env w
  else connectWiFi_world env (monitoring_start env w).

Definition soil_reading (env : Env) (w : World) : Z :=
  Int32.to_signed
    (analogRead_at env (reads (after_wifi env w)) SOIL_SENSOR_PIN).

Definition temperature_reading (env : Env) (w : World) : Z :=
  readTemperature_at env (S (reads (after_wifi env w))).

Definition humidity_reading (env : Env) (w : World) : Z :=
  readHumidity_at env (S (S (reads (after_wifi env w)))).

Definition dht_failed (env : Env) (w : World) : bool :=
  Float32.isnan (temperature_reading env w)
  || Float32.isnan (humidity_reading env w).

(** The status code that [ThingSpeak.writeFields] answers in the cycle. *)
Definition http_code (env : Env) (w : World) : Z :=
  Int32.to_signed (writeFields_at env (S (S (S (reads (after_wifi env w)))))).

Definition DHT_ERROR : text := Lit "Error reading from DHT sensor!".

(** The line logged after the HTTP write. *)
Definition post_log (p : PlantProfile) (httpCode : Z) : text :=
  if httpCode =? 200 then ("Data sent to channel: " +++ name p)%text
  else ("Error sending data. HTTP Code: " +++ OfInt httpCode)%text.

(** Display and cloud events of a cycle with valid readings, up to and
    including the HTTP write, newest first. *)
Definition report_events (p : PlantProfile) (soil temp hum : Z) : list Event :=
  [ThingSpeakWriteFields (channelID p) (apiKey p);
   ThingSpeakSetStatus
     ("Plant: " +++ name p +++ " - " +++ soilStatus soil p);
   ThingSpeakSetField 3 (NFloat hum);
   ThingSpeakSetField 2 (NInt soil);
   ThingSpeakSetField 1 (NFloat temp);
   LcdPrint (soilStatus soil p);
   LcdSetCursor 0 1;
   LcdPrint ("T:" +++ OfFloat temp 1 +++ "C H:" +++ OfFloat hum 1 +++ "%");
   LcdSetCursor 0 0;
   LcdClear].

(** The events of the cycle proper, after the WiFi check. *)
Definition cycle_events (env : Env) (w : World) (p : PlantProfile)
  : list Event :=
  if dht_failed env w then [SerialPrintln DHT_ERROR]
  else
    SerialPrintln (post_log p (http_code env w))
    :: report_events p (soil_reading env w) (temperature_reading env w)
                     (humidity_reading env w).

(** The world that [monitoringAndSendingScreen] returns when the
    selected profile is [p]. *)
Definition monitoring_world (env : Env) (w : World) (p : PlantProfile)
  : World :=
  let w2 := after_wifi env w in
  {| vars := vars (monitoring_start env w);
     trace := cycle_events env w p ++ trace w2;
     reads := if dht_failed env w then S (S (S (reads w2)))
              else S (S (S (S (reads w2)))) |}.

(** ** Classes of events *)

(** Events that stay on the board: display, waiting and the radio. *)
Definition is_local (e : Event) : bool :=
  match e with
  | LcdInit | LcdBacklight | LcdClear | LcdSetCursor _ _ | LcdPrint _
  | Delay _ | WiFiBegin _ _ => true
  | _ => false
  end.

(** A class of events that contains no local event. *)
Definition remote (f : Event -> bool) : Prop :=
  forall e, is_local e = true -> f e = false.

(** ** A pass of [loop] in monitoring mode, run *)

(** The world after the clock has been read at the top of the pass. *)
Definition clock_read (w : World) : World :=
  {| vars := vars w; trace := trace w; reads := S (reads w) |}.

(** The clock reading that decides whether the pass runs a cycle. *)
Definition tick_clock (env : Env) (w : World) : Z :=
  Int32.to_unsigned (millis_at env (reads w)).

Definition cycle_due (env : Env) (w : World) : bool :=
  postingDue (tick_clock env w) (lastConnectionTime (vars w)).

(** The world before SELECT is polled at the end of the pass. *)
Definition before_select (env : Env) (w : World) (p : PlantProfile) : World :=
  if cycle_due env w then monitoring_world env (clock_read w) p
  else clock_read w.

Definition RETURN_EVENTS : list Event :=
  [Delay 500; LcdPrint "plant:"; LcdSetCursor 0 1; LcdPrint "Select the";
   LcdClear].

Definition monitoring_pass_world (env : Env) (w : World) (p : PlantProfile)
  : World :=
  let wm := before_select env w p in
  if pressed env (reads wm) BUTTON_SELECT_PIN then
    {| vars := set_plantWasChosen false (vars wm);
       trace := RETURN_EVENTS ++ trace wm;
       reads := S (reads wm) |}
  else
    {| vars := vars wm; trace := trace wm; reads := S (reads wm) |}.

(** The events of the monitoring pass: the cycle, if it is due, and the
    return to the menu, if SELECT is down. *)
Definition pass_cycle_events (env : Env) (w : World) (p : PlantProfile)
  : list Event :=
  if cycle_due env w
  then cycle_events env (clock_read w) p ++ reconnect_events env (clock_read w)
  else [].

Definition pass_return_events (env : Env) (w : World) (p : PlantProfile)
  : list Event :=
  if pressed env (reads (before_select env w p)) BUTTON_SELECT_PIN
  then RETURN_EVENTS else [].

(** ** A bench for concrete runs *)

Definition basil : PlantProfile :=
  {| name := "Basil"; drySoilMoisture := 2100; wetSoilMoisture := 1400;
     channelID := 1234567; apiKey := "BASILWRITEKEY" |}.

Definition fern : PlantProfile :=
  {| name := "Fern"; drySoilMoisture := 1900; wetSoilMoisture := 1200;
     channelID := 7654321; apiKey := "FERNWRITEKEY" |}.

(** binary32 patterns of 22.5 and 50.0. *)
Definition DEGREES_22_5 : Z := 1102315520.
Definition PERCENT_50 : Z := 1112014848.

(** An environment with a given clock and given buttons, a soil probe
    that reads 1800, a steady temperature reading, a steady radio and a
    steady answer of the cloud service. *)
Definition bench (clock : nat -> Z) (buttons : nat -> Z -> level)
    (temperature : Z) (status : wl_status_t) (code : Z) : Env :=
  {| millis_at := clock;
     digitalRead_at := buttons;
     analogRead_at := fun _ _ => 1800;
     readTemperature_at := fun _ => temperature;
     readHumidity_at := fun _ => PERCENT_50;
     status_at := fun _ => status;
     writeFields_at := fun _ => code |}.

Definition released : nat -> Z -> level := fun _ _ => HIGH.

(** Only the button on [pin] is down, and only at read number [k]. *)
Definition pressed_at (k : nat) (pin : Z) : nat -> Z -> level :=
  fun k' pin' => if Nat.eqb k' k && (pin' =? pin) then LOW else HIGH.

(** Only the button on [pin] is down, at every read. *)
Definition held (pin : Z) : nat -> Z -> level :=
  fun _ pin' => if pin' =? pin then LOW else HIGH.

(** A world with two profiles, the first one selected. *)
Definition garden (chosen : bool) (last : Z) : World :=
  {| vars := {| plantProfiles := [basil; fern];
                numPlants := 2;
                selectedPlantIndex := 0;
                plantWasChosen := chosen;
                calibrationMode := false;
                lastConnectionTime := last |};
     trace := [];
     reads := 0 |}.

(** ** Statements of the specification that the sketch does not meet *)

(** C3 as the specification words it: in monitoring mode a pass runs a
    cycle exactly when at least 30000 ms have elapsed. *)
Definition cycle_runs_from_30000 : Prop :=
  forall env w p,
    mode (vars w) = Monitoring ->
    selected_profile (vars w) = Some p ->
    0 <= selectedPlantIndex (vars w) ->
    exists w',
      loop env w = Ok tt w' /\
      (count is_log (since w w') = 1%nat <->
       30000 <= elapsed (tick_clock env w) (lastConnectionTime (vars w))).

(** C2 as the specification words it: a cycle whose DHT reading is not a
    number changes no global and adds nothing but one log line. *)
Definition dht_failure_is_silent : Prop :=
  forall env w p w',
    selected_profile (vars w) = Some p ->
    0 <= selectedPlantIndex (vars w) ->
    dht_failed env w = true ->
    monitoringAndSendingScreen env w = Ok tt w' ->
    vars w' = vars w /\ since w w' = [SerialPrintln DHT_ERROR].

(** ** Invariants *)

Definition Inv (g : Globals) : Prop := table_ok g /\ index_ok g.

(** The table is the list [ps] and [numPlants] is [n]. *)
Definition table_is (ps : list PlantProfile) (n : Z) (g : Globals) : Prop :=
  plantProfiles g = ps /\ numPlants g = n.

(** [m] leaves the table as it finds it and, unless [n] is zero, never
    divides by zero. *)
Definition keeps_table {A} (ps : list PlantProfile) (n : Z) (m : M A) : Prop :=
  forall env w,
    table_is ps n (vars w) ->
    match m env w with
    | Ok _ w' => table_is ps n (vars w')
    | Fault f => n <> 0 -> f <> DivideByZero
    end.

(** The operations of the program. *)
Definition operations : list (M unit) :=
  [setup; loop; runCalibrationMode; selectionScreen;
   monitoringAndSendingScreen; connectWiFi; handleUp; handleDown;
   handleSelect; returnToSelection].

(** ** Further observations

    Definitions for the properties of the last part of the file. *)

(** [m] run [k] times in a row. *)
Fixpoint times (k : nat) (m : M unit) : M unit :=
  match k with
  | O => ret tt
  | S k' => m ;; times k' m
  end.

(** The association request to the radio. *)
Definition is_radio (e : Event) : bool :=
  match e with
  | WiFiBegin _ _ => true
  | _ => false
  end.

(** The events of one pass of [selectionScreen], newest first: the menu
    lines, the debounce delays of UP and DOWN, and the confirmation of
    SELECT. *)
Definition selection_events (env : Env) (w : World) : list Event :=
  (if pressed env (S (S (reads w))) BUTTON_SELECT_PIN
   then [Delay 2000; LcdPrint (selected_name (selection_vars env w));
         LcdSetCursor 0 1; LcdPrint "Monitoring:"; LcdClear]
   else [])
  ++ (if pressed env (S (reads w)) BUTTON_DOWN_PIN then [Delay 200] else [])
  ++ (if pressed env (reads w) BUTTON_UP_PIN then [Delay 200] else [])
  ++ [LcdPrint "< UP/DOWN >"; LcdSetCursor 0 1;
      LcdPrint ("Plant: " +++ selected_name (vars w) +++ " ");
      LcdSetCursor 0 0].

Definition is_dht_begin (e : Event) : bool :=
  match e with
  | DhtBegin => true
  | _ => false
  end.

(** What [setup] does before it polls SELECT, newest first. *)
Definition STARTUP_EVENTS : list Event :=
  [Delay 1000; LcdPrint "Starting..."; LcdSetCursor 0 0;
   PinModeInputPullup BUTTON_SELECT_PIN; PinModeInputPullup BUTTON_DOWN_PIN;
   PinModeInputPullup BUTTON_UP_PIN; LcdBacklight; LcdInit;
   SerialBegin 115200].

(** The prompt that ends the normal start, newest first. *)
Definition PROMPT_EVENTS : list Event :=
  [Delay 2000; LcdPrint "plant:"; LcdSetCursor 0 1; LcdPrint "Select the"].

(** The events of [setup] entered in world [w]: SELECT is its first
    read, the status poll of [connectWiFi] its second. *)
Definition setup_events (env : Env) (w : World) : list Event :=
  (if pressed env (reads w) BUTTON_SELECT_PIN
   then [LcdPrint "Calibration Mode"; LcdSetCursor 0 0; LcdClear]
   else PROMPT_EVENTS
        ++ [ThingSpeakBegin]
        ++ wifi_events env (clock_read w)
        ++ [DhtBegin])
  ++ STARTUP_EVENTS.

(** The events of one pass of [runCalibrationMode] that reads [v]. *)
Definition calibration_pass_events (v : Z) : list Event :=
  [Delay 250; SerialPrintln ("Calibration Value: " +++ OfInt v);
   LcdPrint "   "; LcdPrint (OfInt v); LcdPrint "Value: ";
   LcdSetCursor 0 1].

(** The events of [n] passes in calibration mode, the first of which
    makes read number [k]. *)
Fixpoint calibration_events (env : Env) (k n : nat) : list Event :=
  match n with
  | O => []
  | S n' =>
      calibration_events env (S k) n'
      ++ calibration_pass_events
           (Int32.to_signed (analogRead_at env k SOIL_SENSOR_PIN))
  end.

(** The device is in the menu and has so far neither posted nor
    logged. *)
Definition idle_in_menu (w : World) : Prop :=
  Inv (vars w) /\
  mode (vars w) = Selecting /\
  lastConnectionTime (vars w) = 0 /\
  count is_post (trace w) = 0%nat /\
  count is_log (trace w) = 0%nat.

(** * Properties *)

(** ** Machine integers *)

Module Int32Facts.

Import Int32.

Lemma to_unsigned_range z : 0 <= to_unsigned z < modulus.
Proof. unfold to_unsigned, modulus. apply Z.mod_pos_bound. lia. Qed.

Lemma to_unsigned_small z : 0 <= z < modulus -> to_unsigned z = z.
Proof. intros H. unfold to_unsigned. apply Z.mod_small. exact H. Qed.

Lemma to_signed_range z : INT_MIN <= to_signed z <= INT_MAX.
Proof.
  unfold to_signed, INT_MIN, INT_MAX, modulus.
  pose proof (Z.mod_pos_bound (z + 2 ^ 31) (2 ^ 32)). lia.
Qed.

Lemma to_signed_small z : INT_MIN <= z <= INT_MAX -> to_signed z = z.
Proof.
  unfold to_signed, INT_MIN, INT_MAX, modulus. intros H.
  rewrite Z.mod_small; lia.
Qed.

Lemma in_int_true z : in_int z = true <-> INT_MIN <= z <= INT_MAX.
Proof. unfold in_int. rewrite andb_true_iff, !Z.leb_le. tauto. Qed.

(** Converting a [long] to [unsigned long] and back loses nothing. *)
Lemma to_unsigned_to_signed z : to_unsigned (to_signed z) = to_unsigned z.
Proof.
  unfold to_unsigned, to_signed, modulus.
  rewrite Zminus_mod_idemp_l. f_equal. lia.
Qed.

End Int32Facts.

Lemma isnan_NAN : Float32.isnan Float32.NAN = true.
Proof. reflexivity. Qed.

(** ** The monad *)

Lemma bind_run {A B} (m : M A) (k : A -> M B) env w a w' :
  m env w = Ok a w' -> bind m k env w = k a env w'.
Proof. intros H. unfold bind. rewrite H. reflexivity. Qed.

(** ** A run from power-on *)

(** Power on with SELECT released and the radio up, confirm the first
    profile on the first pass of [loop]: the second pass, at clock 5000,
    runs a cycle, shows "Ideal soil" for the reading 1800 and posts to
    the channel of that profile. *)
Example power_on_select_and_post :
  exists w',
    run 2 (bench (fun _ => 5000) (pressed_at 4 BUTTON_SELECT_PIN)
                 DEGREES_22_5 WL_CONNECTED 200)
        (boot [basil; fern]) = Ok tt w' /\
    mode (vars w') = Monitoring /\
    lastConnectionTime (vars w') = 5000 /\
    firstn 7 (trace w')
    = [SerialPrintln ("Data sent to channel: " +++ "Basil");
       ThingSpeakWriteFields 1234567 "BASILWRITEKEY";
       ThingSpeakSetStatus ("Plant: " +++ "Basil" +++ " - " +++ "Ideal soil");
       ThingSpeakSetField 3 (NFloat PERCENT_50);
       ThingSpeakSetField 2 (NInt 1800);
       ThingSpeakSetField 1 (NFloat DEGREES_22_5);
       LcdPrint "Ideal soil"].
Proof.
  eexists. split; [vm_compute; reflexivity |].
  repeat split.
Qed.

(** ** The soil classifier *)

(** C1.  With [dry > wet], the soil analysis yields "Water the soil"
    exactly for readings above the dry threshold, "Soil too wet" exactly
    for readings below the wet threshold and "Ideal soil" exactly for
    the readings in between, both thresholds included; for dry = 2100
    and wet = 1400 the readings 2300, 1200 and 1800 give the three
    answers in that order. *)
Theorem soilStatus_classifies (v : Z) (p : PlantProfile) :
  drySoilMoisture p > wetSoilMoisture p ->
  (soilStatus v p = "Water the soil" <-> v > drySoilMoisture p) /\
  (soilStatus v p = "Soil too wet" <-> v < wetSoilMoisture p) /\
  (soilStatus v p = "Ideal soil" <->
     ~ v > drySoilMoisture p /\ ~ v < wetSoilMoisture p) /\
  soilStatus (drySoilMoisture p) p = "Ideal soil" /\
  soilStatus (wetSoilMoisture p) p = "Ideal soil" /\
  (drySoilMoisture p = 2100 -> wetSoilMoisture p = 1400 ->
   soilStatus 2300 p = "Water the soil" /\
   soilStatus 1200 p = "Soil too wet" /\
   soilStatus 1800 p = "Ideal soil").
Proof.
  intros Hgap. unfold soilStatus.
  split; [| split; [| split; [| split; [| split]]]].
  - destruct (Z.gtb_spec v (drySoilMoisture p));
      destruct (Z.ltb_spec v (wetSoilMoisture p));
      split; intros; try reflexivity; try discriminate; lia.
  - destruct (Z.gtb_spec v (drySoilMoisture p));
      destruct (Z.ltb_spec v (wetSoilMoisture p));
      split; intros; try reflexivity; try discriminate; lia.
  - destruct (Z.gtb_spec v (drySoilMoisture p));
      destruct (Z.ltb_spec v (wetSoilMoisture p));
      split; intros; try reflexivity; try discriminate; lia.
  - destruct (Z.gtb_spec (drySoilMoisture p) (drySoilMoisture p)); [lia |].
    destruct (Z.ltb_spec (drySoilMoisture p) (wetSoilMoisture p));
      [lia | reflexivity].
  - destruct (Z.gtb_spec (wetSoilMoisture p) (drySoilMoisture p)); [lia |].
    destruct (Z.ltb_spec (wetSoilMoisture p) (wetSoilMoisture p));
      [lia | reflexivity].
  - intros Hd Hw. rewrite Hd, Hw. repeat split.
Qed.

Lemma soilStatus_classifies_witness :
  let p := {| name := "Basil"; drySoilMoisture := 2100;
              wetSoilMoisture := 1400; channelID := 1; apiKey := "KEY" |} in
  soilStatus 2300 p = "Water the soil" /\
  soilStatus 1200 p = "Soil too wet" /\
  soilStatus 1800 p = "Ideal soil".
Proof.
  intros p.
  apply (soilStatus_classifies 0 p); [reflexivity | reflexivity | reflexivity].
Defined.

(** ** Running the WiFi connection handler *)

Lemma waiting_shift k tr :
  waiting k ++ Delay 500 :: LcdPrint "." :: tr
  = Delay 500 :: LcdPrint "." :: waiting k ++ tr.
Proof.
  induction k as [| k IH]; simpl; [reflexivity |].
  rewrite IH. reflexivity.
Qed.

Lemma delay_total_app tr1 tr2 :
  delay_total (tr1 ++ tr2) = delay_total tr1 + delay_total tr2.
Proof.
  induction tr1 as [| e tr1 IH]; simpl; [reflexivity |].
  destruct e; rewrite ?IH; lia.
Qed.

Lemma delay_total_waiting k : delay_total (waiting k) = 500 * Z.of_nat k.
Proof.
  induction k as [| k IH]; [reflexivity |].
  cbn [waiting delay_total]. rewrite IH. lia.
Qed.

Lemma failed_polls_le env k n : (failed_polls env k n <= n)%nat.
Proof.
  revert k. induction n as [| n IH]; intros k; simpl; [lia |].
  destruct (is_connected (status_at env k)); [lia |].
  specialize (IH (S k)). lia.
Qed.

(** Fewer than [n] failed polls: the poll that ended the count answered
    [WL_CONNECTED]. *)
Lemma failed_polls_stop env k n :
  (failed_polls env k n < n)%nat ->
  is_connected (status_at env (failed_polls env k n + k)) = true.
Proof.
  revert k. induction n as [| n IH]; intros k; simpl; [lia |].
  destruct (is_connected (status_at env k)) eqn:E; [intros _; exact E |].
  intros H. replace (S (failed_polls env (S k) n) + k)%nat
    with (failed_polls env (S k) n + S k)%nat by lia.
  apply IH. lia.
Qed.

(** All polls before the one that ended the count failed. *)
Lemma failed_polls_before env k n j :
  (j < failed_polls env k n)%nat ->
  is_connected (status_at env (j + k)) = false.
Proof.
  revert k j. induction n as [| n IH]; intros k j; simpl; [lia |].
  destruct (is_connected (status_at env k)) eqn:E; [lia |].
  destruct j as [| j]; [intros _; exact E |].
  intros H. replace (S j + k)%nat with (j + S k)%nat by lia.
  apply IH. lia.
Qed.

Lemma failed_polls_all env k n :
  (forall j, (j < n)%nat -> is_connected (status_at env (j + k)) = false) ->
  failed_polls env k n = n.
Proof.
  revert k. induction n as [| n IH]; intros k H; simpl; [reflexivity |].
  assert (is_connected (status_at env k) = false) as E
    by (apply (H O); lia).
  rewrite E. f_equal. apply IH.
  intros j Hj. replace (j + S k)%nat with (S j + k)%nat by lia.
  apply H. lia.
Qed.

(** The retry loop returns whenever the fuel covers the attempts that are
    left, and then it has polled the status once more than it has
    waited. *)
Lemma connectWiFi_wait_run env n :
  forall fuel attempts w,
    attempts = 20 - Z.of_nat n ->
    (n <= fuel)%nat ->
    (n <= 20)%nat ->
    connectWiFi_wait fuel attempts env w
    = Ok tt {| vars := vars w;
               trace := waiting (failed_polls env (reads w) n) ++ trace w;
               reads := S (failed_polls env (reads w) n + reads w) |}.
Proof.
  induction n as [| n IH]; intros fuel attempts w Ha Hfuel Hn.
  - assert ((attempts <? 20) = false) as Hlt by (apply Z.ltb_ge; lia).
    destruct fuel; cbn -[Z.ltb]; rewrite Hlt, andb_false_r; reflexivity.
  - assert ((attempts <? 20) = true) as Hlt by (apply Z.ltb_lt; lia).
    destruct fuel as [| fuel]; [lia |].
    cbn -[Z.ltb Int32.in_int]. rewrite Hlt, andb_true_r.
    destruct (is_connected (status_at env (reads w))); cbn -[Int32.in_int];
      [reflexivity |].
    unfold int_add.
    assert (Int32.in_int (attempts + 1) = true) as Hin
      by (apply Int32Facts.in_int_true; unfold Int32.INT_MIN, Int32.INT_MAX; lia).
    rewrite Hin. cbn.
    rewrite (IH fuel (attempts + 1)) by lia. cbn.
    rewrite waiting_shift. f_equal. f_equal. lia.
Qed.

(** With the 20 units of fuel that [connectWiFi] passes, the loop never
    runs out. *)
Lemma connectWiFi_wait_returns env w :
  exists w', connectWiFi_wait 20 0 env w = Ok tt w'.
Proof.
  eexists. apply (connectWiFi_wait_run env 20); [reflexivity | lia | lia].
Qed.

Lemma connectWiFi_run env w :
  connectWiFi env w = Ok tt (connectWiFi_world env w).
Proof.
  unfold connectWiFi, connectWiFi_world.
  cbn -[connectWiFi_wait failed_polls].
  destruct (is_connected (status_at env (reads w))); [reflexivity |].
  cbn -[connectWiFi_wait failed_polls].
  erewrite bind_run
    by (apply (connectWiFi_wait_run env 20); reflexivity || lia).
  cbn -[failed_polls waiting].
  unfold connectWiFi_report, connectWiFi_events.
  set (j := failed_polls env (S (reads w)) 20).
  destruct (is_connected (status_at env (S (j + S (reads w)))));
    cbn -[waiting]; rewrite <- app_assoc; reflexivity.
Qed.

Lemma since_app d w w' :
  trace w' = d ++ trace w -> since w w' = d.
Proof.
  intros H. unfold since. rewrite H, length_app.
  replace (List.length d + List.length (trace w) - List.length (trace w))%nat
    with (List.length d + 0)%nat by lia.
  rewrite firstn_app_2. simpl. apply app_nil_r.
Qed.

Lemma since_same w w' : trace w' = trace w -> since w w' = [].
Proof. intros H. apply (since_app [] w w'). exact H. Qed.

(** ** Running the selection screen *)

Lemma int_add_run a b env w :
  Int32.INT_MIN <= a + b <= Int32.INT_MAX -> int_add a b env w = Ok (a + b) w.
Proof.
  intros H. unfold int_add.
  rewrite (proj2 (Int32Facts.in_int_true _) H). reflexivity.
Qed.

Lemma int_sub_run a b env w :
  Int32.INT_MIN <= a - b <= Int32.INT_MAX -> int_sub a b env w = Ok (a - b) w.
Proof.
  intros H. unfold int_sub.
  rewrite (proj2 (Int32Facts.in_int_true _) H). reflexivity.
Qed.

(** For a non-negative dividend and a positive divisor the remainder of
    C++ is defined and is the mathematical one. *)
Lemma int_rem_run a b env w :
  0 <= a -> 1 <= b -> int_rem a b env w = Ok (a mod b) w.
Proof.
  intros Ha Hb. unfold int_rem.
  destruct (Z.eqb_spec b 0); [lia |].
  destruct (Z.eqb_spec b (-1)); [lia |].
  rewrite andb_false_r, Z.rem_mod_nonneg by lia. reflexivity.
Qed.

(** A divisor other than zero never takes the division-by-zero branch. *)
Lemma int_rem_no_DivideByZero a b env w :
  b <> 0 -> int_rem a b env w <> Fault DivideByZero.
Proof.
  intros Hb. unfold int_rem.
  destruct (Z.eqb_spec b 0); [contradiction |].
  destruct ((a =? Int32.INT_MIN) && (b =? -1)); discriminate.
Qed.

Lemma plantProfiles_at_run i env w :
  0 <= i < Z.of_nat (List.length (plantProfiles (vars w))) ->
  exists p, nth_error (plantProfiles (vars w)) (Z.to_nat i) = Some p /\
            plantProfiles_at i env w = Ok p w.
Proof.
  intros Hi.
  destruct (nth_error (plantProfiles (vars w)) (Z.to_nat i)) as [p |] eqn:E.
  - exists p. split; [reflexivity |].
    unfold plantProfiles_at. cbn.
    destruct (Z.ltb_spec i 0); [lia |]. rewrite E. reflexivity.
  - apply nth_error_None in E. lia.
Qed.

(** Unfold the plumbing of the monad and of the library calls, leaving
    the fallible operations and the branches in place. *)
Ltac exec :=
  cbv beta iota zeta delta
    [bind ret gets emit input modify when lcd_print lcd_clear
     lcd_setCursor delay Serial_println digitalRead analogRead millis
     dht_readTemperature dht_readHumidity WiFi_status WiFi_begin
     ThingSpeak_setField ThingSpeak_setStatus ThingSpeak_writeFields];
  cbn [vars trace reads plantProfiles numPlants selectedPlantIndex
       plantWasChosen calibrationMode lastConnectionTime
       set_selectedPlantIndex set_plantWasChosen set_calibrationMode
       set_lastConnectionTime].

Ltac int_bounds :=
  unfold Int32.INT_MIN, Int32.INT_MAX in *;
  change (2 ^ 30) with 1073741824 in *;
  change (2 ^ 31) with 2147483648 in *.

Lemma handleUp_run env w :
  table_ok (vars w) -> index_ok (vars w) ->
  handleUp env w
  = Ok tt {| vars := set_selectedPlantIndex
                       (next_index (selectedPlantIndex (vars w))
                                   (numPlants (vars w))) (vars w);
             trace := Delay 200 :: trace w;
             reads := reads w |}.
Proof.
  intros [_ Hn] Hi. red in Hi. unfold handleUp, next_index. exec.
  rewrite int_add_run by (int_bounds; lia). exec.
  rewrite int_rem_run by lia. exec. reflexivity.
Qed.

Lemma handleDown_run env w :
  table_ok (vars w) -> index_ok (vars w) ->
  handleDown env w
  = Ok tt {| vars := set_selectedPlantIndex
                       (prev_index (selectedPlantIndex (vars w))
                                   (numPlants (vars w))) (vars w);
             trace := Delay 200 :: trace w;
             reads := reads w |}.
Proof.
  intros [_ Hn] Hi. red in Hi. unfold handleDown, prev_index. exec.
  rewrite int_sub_run by (int_bounds; lia). exec.
  rewrite int_add_run by (int_bounds; lia). exec.
  rewrite int_rem_run by lia. exec. reflexivity.
Qed.

Lemma handleSelect_run env w :
  table_ok (vars w) -> index_ok (vars w) ->
  handleSelect env w
  = Ok tt {| vars := set_lastConnectionTime (- postingInterval)
                       (set_plantWasChosen true (vars w));
             trace := Delay 2000 :: LcdPrint (selected_name (vars w))
                      :: LcdSetCursor 0 1 :: LcdPrint "Monitoring:"
                      :: LcdClear :: trace w;
             reads := reads w |}.
Proof.
  intros [Hlen Hn] Hi. red in Hi.
  destruct (plantProfiles_at_run (selectedPlantIndex (vars w)) env
              {| vars := set_plantWasChosen true (vars w);
                 trace := LcdSetCursor 0 1 :: LcdPrint "Monitoring:"
                          :: LcdClear :: trace w;
                 reads := reads w |}) as [p [Hp Hrun]]; [cbn; lia |].
  unfold handleSelect. exec. rewrite Hrun. exec.
  unfold selected_name, selected_profile.
  cbn in Hp. rewrite Hp. reflexivity.
Qed.

Lemma next_index_range i n : 1 <= n -> 0 <= next_index i n < n.
Proof. intros Hn. unfold next_index. apply Z.mod_pos_bound. lia. Qed.

Lemma prev_index_range i n : 1 <= n -> 0 <= prev_index i n < n.
Proof. intros Hn. unfold prev_index. apply Z.mod_pos_bound. lia. Qed.

Lemma set_selectedPlantIndex_same g :
  set_selectedPlantIndex (selectedPlantIndex g) g = g.
Proof. destruct g; reflexivity. Qed.

(** The part of the list [t] that lies in front of [base]. *)
Ltac prefix_of t base :=
  lazymatch t with
  | base => constr:(@nil Event)
  | ?e :: ?t' => let d := prefix_of t' base in constr:(e :: d)
  | ?a ++ ?t' => let d := prefix_of t' base in constr:(a ++ d)
  end.

(** Replace [since w w'] by the events that [w'] has in front of the
    trace of [w]. *)
Ltac since_events :=
  match goal with
  | |- context [since ?w ?w'] =>
      let t := eval cbn [trace] in (trace w') in
      let d := prefix_of t (trace w) in
      rewrite (since_app d w w')
        by (cbn [trace app]; repeat (rewrite <- app_assoc; cbn [app]);
            reflexivity)
  end.

(** Close a goal by a hypothesis that states it up to unfolding. *)
Ltac by_hyp :=
  solve [ assumption | match goal with H : _ |- _ => exact H end ].

Lemma selectionScreen_run env w :
  table_ok (vars w) -> index_ok (vars w) ->
  exists w',
    selectionScreen env w = Ok tt w' /\
    vars w' = selection_vars env w /\
    reads w' = S (S (S (reads w))) /\
    count is_post (since w w') = 0%nat.
Proof.
  intros Ht Hi.
  pose proof Ht as [Hlen Hn]. pose proof Hi as Hi'. red in Hi'.
  pose proof (next_index_range (selectedPlantIndex (vars w))
                (numPlants (vars w)) (proj1 Hn)) as Hnext.
  destruct (plantProfiles_at_run (selectedPlantIndex (vars w)) env
              {| vars := vars w; trace := LcdSetCursor 0 0 :: trace w;
                 reads := reads w |}) as [p [_ Hrun]]; [cbn; lia |].
  unfold selectionScreen, selection_vars, pressed. exec.
  rewrite Hrun. exec.
  destruct (level_eqb (digitalRead_at env (reads w) BUTTON_UP_PIN) LOW);
    [rewrite handleUp_run by by_hyp |]; exec;
    (destruct (level_eqb (digitalRead_at env (S (reads w))
                                         BUTTON_DOWN_PIN) LOW);
     [rewrite handleDown_run
        by (by_hyp || apply next_index_range, Hn) |]; exec);
    (destruct (level_eqb (digitalRead_at env (S (S (reads w)))
                                         BUTTON_SELECT_PIN) LOW);
     [rewrite handleSelect_run
        by (by_hyp || apply next_index_range, Hn
            || apply prev_index_range, Hn) |]; exec);
    eexists; (split; [reflexivity |]); cbn [vars reads];
    (split; [rewrite ?set_selectedPlantIndex_same; reflexivity |]);
    (split; [reflexivity |]); since_events; reflexivity.
Qed.

(** ** Running a monitoring cycle *)

Lemma plantProfiles_at_some i p env w :
  nth_error (plantProfiles (vars w)) (Z.to_nat i) = Some p ->
  0 <= i ->
  plantProfiles_at i env w = Ok p w.
Proof.
  intros Hp Hi. unfold plantProfiles_at. exec.
  destruct (Z.ltb_spec i 0); [lia |]. rewrite Hp. reflexivity.
Qed.

Lemma vars_connectWiFi_world env w : vars (connectWiFi_world env w) = vars w.
Proof.
  unfold connectWiFi_world.
  destruct (is_connected (status_at env (reads w))); reflexivity.
Qed.

Lemma trace_connectWiFi_world env w :
  trace (connectWiFi_world env w) = wifi_events env w ++ trace w.
Proof.
  unfold connectWiFi_world, wifi_events.
  destruct (is_connected (status_at env (reads w))); reflexivity.
Qed.

Lemma vars_after_wifi env w :
  vars (after_wifi env w) = vars (monitoring_start env w).
Proof.
  unfold after_wifi.
  destruct (is_connected (status_at env (S (reads w)))); [reflexivity |].
  apply vars_connectWiFi_world.
Qed.

Lemma trace_after_wifi env w :
  trace (after_wifi env w) = reconnect_events env w ++ trace w.
Proof.
  unfold after_wifi, reconnect_events.
  destruct (is_connected (status_at env (S (reads w)))); [reflexivity |].
  exact (trace_connectWiFi_world env (monitoring_start env w)).
Qed.

Lemma monitoringAndSendingScreen_run env w p :
  selected_profile (vars w) = Some p ->
  0 <= selectedPlantIndex (vars w) ->
  monitoringAndSendingScreen env w = Ok tt (monitoring_world env w p).
Proof.
  intros Hp Hi.
  assert (forall env' w2,
             vars w2 = vars (monitoring_start env w) ->
             plantProfiles_at (selectedPlantIndex (vars w2)) env' w2 = Ok p w2)
    as Hprofile.
  { intros env' w2 Hv. apply plantProfiles_at_some; rewrite Hv; assumption. }
  assert (forall w2,
             vars w2 = vars (monitoring_start env w) ->
             w2 = after_wifi env w ->
             (i <- gets selectedPlantIndex ;;
              currentProfile <- plantProfiles_at i ;;
              soilMoistureValue <- analogRead SOIL_SENSOR_PIN ;;
              temperature <- dht_readTemperature ;;
              airHumidity <- dht_readHumidity ;;
              if Float32.isnan temperature || Float32.isnan airHumidity then
                Serial_println "Error reading from DHT sensor!"
              else
                let status := soilStatus soilMoistureValue currentProfile in
                lcd_clear ;;
                lcd_setCursor 0 0 ;;
                lcd_print ("T:" +++ OfFloat temperature 1 +++ "C H:"
                           +++ OfFloat airHumidity 1 +++ "%") ;;
                lcd_setCursor 0 1 ;;
                lcd_print status ;;
                ThingSpeak_setField 1 (NFloat temperature) ;;
                ThingSpeak_setField 2 (NInt soilMoistureValue) ;;
                ThingSpeak_setField 3 (NFloat airHumidity) ;;
                ThingSpeak_setStatus
                  ("Plant: " +++ name currentProfile +++ " - " +++ status) ;;
                httpCode <- ThingSpeak_writeFields (channelID currentProfile)
                                                   (apiKey currentProfile) ;;
                if httpCode =? 200 then
                  Serial_println
                    ("Data sent to channel: " +++ name currentProfile)
                else
                  Serial_println
                    ("Error sending data. HTTP Code: " +++ OfInt httpCode))
               env w2
             = Ok tt (monitoring_world env w p)) as Hrest.
  { intros w2 Hv Hw2.
    unfold monitoring_world, cycle_events, dht_failed, temperature_reading,
      humidity_reading, soil_reading, http_code, post_log, report_events,
      DHT_ERROR.
    rewrite <- Hw2. exec. rewrite (Hprofile env w2 Hv). exec.
    destruct (Float32.isnan (readTemperature_at env (S (reads w2)))
              || Float32.isnan (readHumidity_at env (S (S (reads w2)))));
      exec; [rewrite <- Hv; reflexivity |].
    destruct (Int32.to_signed (writeFields_at env (S (S (S (reads w2)))))
              =? 200); exec; rewrite <- Hv; reflexivity. }
  unfold monitoringAndSendingScreen.
  cbv beta iota zeta delta [bind millis input ret modify WiFi_status when].
  cbn [vars trace reads].
  change {| vars := set_lastConnectionTime
                      (Int32.to_signed
                         (Int32.to_unsigned (millis_at env (reads w))))
                      (vars w);
            trace := trace w; reads := S (S (reads w)) |}
    with (monitoring_start env w).
  pose proof (vars_after_wifi env w) as Hv.
  unfold after_wifi in Hrest, Hv.
  destruct (is_connected (status_at env (S (reads w)))); cbn [negb].
  - apply (Hrest _ eq_refl eq_refl).
  - rewrite connectWiFi_run. apply (Hrest _ Hv eq_refl).
Qed.

(** ** Counting events *)

Lemma count_app f a b : count f (a ++ b) = (count f a + count f b)%nat.
Proof. unfold count. rewrite filter_app, length_app. reflexivity. Qed.

Lemma remote_is_log : remote is_log.
Proof. intros e; destruct e; cbn; congruence. Qed.

Lemma remote_is_post : remote is_post.
Proof. intros e; destruct e; cbn; congruence. Qed.

Lemma remote_is_cloud : remote is_cloud.
Proof. intros e; destruct e; cbn; congruence. Qed.

Create HintDb sketch.
#[local] Hint Resolve remote_is_log remote_is_post remote_is_cloud : sketch.

Lemma count_cons_local f e tr :
  remote f -> is_local e = true -> count f (e :: tr) = count f tr.
Proof.
  intros Hf He. unfold count. cbn [filter]. rewrite (Hf e He). reflexivity.
Qed.

Lemma count_waiting f k : remote f -> count f (waiting k) = 0%nat.
Proof.
  intros Hf. induction k as [| k IH]; [reflexivity |].
  cbn [waiting]. rewrite !count_cons_local by (assumption || reflexivity).
  exact IH.
Qed.

Lemma count_connectWiFi_events f j r :
  remote f -> count f (connectWiFi_events j r) = 0%nat.
Proof.
  intros Hf. unfold connectWiFi_events.
  rewrite !count_cons_local by (assumption || reflexivity).
  rewrite count_app, count_waiting by assumption.
  rewrite !count_cons_local by (assumption || reflexivity).
  reflexivity.
Qed.

Lemma count_wifi_events f env w : remote f -> count f (wifi_events env w) = 0%nat.
Proof.
  intros Hf. unfold wifi_events.
  destruct (is_connected (status_at env (reads w))); [reflexivity |].
  apply count_connectWiFi_events, Hf.
Qed.

Lemma count_reconnect_events f env w :
  remote f -> count f (reconnect_events env w) = 0%nat.
Proof.
  intros Hf. unfold reconnect_events.
  destruct (is_connected (status_at env (S (reads w)))); [reflexivity |].
  apply count_wifi_events, Hf.
Qed.

Lemma count_is_log_cycle_events env w p :
  count is_log (cycle_events env w p) = 1%nat.
Proof. unfold cycle_events. destruct (dht_failed env w); reflexivity. Qed.

Lemma count_is_post_cycle_events env w p :
  count is_post (cycle_events env w p)
  = if dht_failed env w then 0%nat else 1%nat.
Proof. unfold cycle_events. destruct (dht_failed env w); reflexivity. Qed.

Lemma since_monitoring_world env w p :
  since w (monitoring_world env w p)
  = cycle_events env w p ++ reconnect_events env w.
Proof.
  apply since_app. unfold monitoring_world. cbn [trace].
  rewrite trace_after_wifi, app_assoc. reflexivity.
Qed.

(** ** Running a pass of [loop] in monitoring mode *)

Lemma loop_monitoring_run env w p :
  mode (vars w) = Monitoring ->
  selected_profile (vars w) = Some p ->
  0 <= selectedPlantIndex (vars w) ->
  loop env w = Ok tt (monitoring_pass_world env w p).
Proof.
  unfold mode. intros Hm Hp Hi.
  destruct (calibrationMode (vars w)) eqn:Hc; [discriminate |].
  destruct (plantWasChosen (vars w)) eqn:Hch; [| discriminate].
  unfold loop. exec. rewrite Hc, Hch. cbn [negb].
  unfold monitoring_pass_world, before_select, cycle_due, tick_clock, pressed.
  change {| vars := vars w; trace := trace w; reads := S (reads w) |}
    with (clock_read w).
  destruct (postingDue (Int32.to_unsigned (millis_at env (reads w)))
                       (lastConnectionTime (vars w))).
  - rewrite (monitoringAndSendingScreen_run env (clock_read w) p)
      by assumption.
    set (wm := monitoring_world env (clock_read w) p).
    destruct (level_eqb (digitalRead_at env (reads wm) BUTTON_SELECT_PIN) LOW);
      reflexivity.
  - destruct (level_eqb (digitalRead_at env (reads (clock_read w))
                                        BUTTON_SELECT_PIN) LOW);
      reflexivity.
Qed.

Lemma postingDue_spec now last :
  postingDue now last = true <-> 30000 < elapsed now last.
Proof.
  unfold postingDue.
  change (Int32.to_unsigned postingInterval) with 30000.
  rewrite Z.gtb_ltb. apply Z.ltb_lt.
Qed.

Lemma postingDue_false now last :
  postingDue now last = false <-> elapsed now last <= 30000.
Proof.
  unfold postingDue.
  change (Int32.to_unsigned postingInterval) with 30000.
  rewrite Z.gtb_ltb. apply Z.ltb_ge.
Qed.

Lemma trace_before_select env w p :
  trace (before_select env w p) = pass_cycle_events env w p ++ trace w.
Proof.
  unfold before_select, pass_cycle_events.
  destruct (cycle_due env w); [| reflexivity].
  unfold monitoring_world. cbn [trace].
  rewrite trace_after_wifi, app_assoc. reflexivity.
Qed.

Lemma since_monitoring_pass env w p :
  since w (monitoring_pass_world env w p)
  = pass_return_events env w p ++ pass_cycle_events env w p.
Proof.
  apply since_app. unfold monitoring_pass_world, pass_return_events.
  destruct (pressed env (reads (before_select env w p)) BUTTON_SELECT_PIN);
    cbn [trace]; rewrite trace_before_select.
  - rewrite app_assoc. reflexivity.
  - reflexivity.
Qed.

Lemma count_pass_return_events f env w p :
  remote f -> count f (pass_return_events env w p) = 0%nat.
Proof.
  intros Hf. unfold pass_return_events, RETURN_EVENTS.
  destruct (pressed env (reads (before_select env w p)) BUTTON_SELECT_PIN);
    [| reflexivity].
  rewrite !count_cons_local by (assumption || reflexivity). reflexivity.
Qed.

Lemma count_is_log_pass env w p :
  count is_log (since w (monitoring_pass_world env w p))
  = if cycle_due env w then 1%nat else 0%nat.
Proof.
  rewrite since_monitoring_pass, count_app.
  rewrite count_pass_return_events by auto with sketch.
  unfold pass_cycle_events. destruct (cycle_due env w); [| reflexivity].
  rewrite count_app, count_is_log_cycle_events.
  rewrite count_reconnect_events by auto with sketch. reflexivity.
Qed.

Lemma count_is_post_pass env w p :
  count is_post (since w (monitoring_pass_world env w p))
  = if cycle_due env w
    then if dht_failed env (clock_read w) then 0%nat else 1%nat
    else 0%nat.
Proof.
  rewrite since_monitoring_pass, count_app.
  rewrite count_pass_return_events by auto with sketch.
  unfold pass_cycle_events. destruct (cycle_due env w); [| reflexivity].
  rewrite count_app, count_is_post_cycle_events.
  rewrite count_reconnect_events by auto with sketch.
  destruct (dht_failed env (clock_read w)); reflexivity.
Qed.

Lemma lastConnectionTime_monitoring_pass env w p :
  lastConnectionTime (vars (monitoring_pass_world env w p))
  = if cycle_due env w
    then Int32.to_signed (tick_clock env (clock_read w))
    else lastConnectionTime (vars w).
Proof.
  unfold monitoring_pass_world, before_select.
  destruct (cycle_due env w);
    match goal with
    | |- context [pressed ?e ?k ?pin] => destruct (pressed e k pin)
    end; reflexivity.
Qed.

(** ** The posting interval *)

(** C3, counterexample.  With the last post at 0 and the clock at
    exactly 30000 the pass runs no cycle: the comparison of [loop] is
    strict. *)
Lemma no_cycle_at_exactly_30000 : ~ cycle_runs_from_30000.
Proof.
  intros H.
  destruct (H (bench (fun _ => 30000) released DEGREES_22_5 WL_CONNECTED 200)
              (garden true 0) basil eq_refl eq_refl ltac:(cbn; lia))
    as [w' [Hrun [_ Hcount]]].
  vm_compute in Hrun. injection Hrun as <-.
  assert (30000 <= 30000) as Hle by lia.
  apply Hcount in Hle. vm_compute in Hle. discriminate.
Qed.

(** C3, amended.  In monitoring mode a pass of [loop] runs a cycle
    exactly when the unsigned 32-bit difference between the clock and
    [lastConnectionTime] is greater than 30000 ms; up to and including
    30000 ms it logs nothing, posts nothing and leaves the timer alone;
    a cycle that runs posts once unless the DHT reading is invalid. *)
Theorem cycle_runs_past_interval (env : Env) (w : World) (p : PlantProfile) :
  mode (vars w) = Monitoring ->
  selected_profile (vars w) = Some p ->
  0 <= selectedPlantIndex (vars w) ->
  exists w',
    loop env w = Ok tt w' /\
    (count is_log (since w w') = 1%nat <->
     30000 < elapsed (tick_clock env w) (lastConnectionTime (vars w))) /\
    (30000 < elapsed (tick_clock env w) (lastConnectionTime (vars w)) ->
     lastConnectionTime (vars w')
     = Int32.to_signed (tick_clock env (clock_read w)) /\
     count is_post (since w w')
     = if dht_failed env (clock_read w) then 0%nat else 1%nat) /\
    (elapsed (tick_clock env w) (lastConnectionTime (vars w)) <= 30000 ->
     count is_log (since w w') = 0%nat /\
     count is_post (since w w') = 0%nat /\
     lastConnectionTime (vars w') = lastConnectionTime (vars w)).
Proof.
  intros Hm Hp Hi.
  exists (monitoring_pass_world env w p).
  split; [apply loop_monitoring_run; assumption |].
  rewrite count_is_log_pass, count_is_post_pass,
    lastConnectionTime_monitoring_pass.
  pose proof (postingDue_spec (tick_clock env w)
                (lastConnectionTime (vars w))) as Hdue.
  pose proof (postingDue_false (tick_clock env w)
                (lastConnectionTime (vars w))) as Hnot.
  fold (cycle_due env w) in Hdue, Hnot.
  destruct (cycle_due env w).
  - pose proof (proj1 Hdue eq_refl) as Hlt.
    split; [tauto |]. split; [intros _; split; reflexivity |]. lia.
  - pose proof (proj1 Hnot eq_refl) as Hle.
    split; [split; [discriminate | lia] |].
    split; [lia |]. intros _. repeat split.
Qed.

Lemma cycle_runs_past_interval_witness :
  exists w',
    loop (bench (fun _ => 30001) released DEGREES_22_5 WL_CONNECTED 200)
         (garden true 0) = Ok tt w' /\
    count is_log (since (garden true 0) w') = 1%nat.
Proof.
  destruct (cycle_runs_past_interval
              (bench (fun _ => 30001) released DEGREES_22_5 WL_CONNECTED 200)
              (garden true 0) basil eq_refl eq_refl ltac:(cbn; lia))
    as [w' [Hrun [Hlog _]]].
  exists w'. split; [exact Hrun |].
  apply Hlog. vm_compute. reflexivity.
Defined.

(** ** A failed sensor read *)

(** C2, counterexample.  The clock is at 40000, the radio is down and
    the temperature reading is NaN: the cycle moves [lastConnectionTime]
    from 0 to 40000 and [connectWiFi] draws on the display. *)
Lemma dht_failure_moves_timer_and_may_draw :
  ~ dht_failure_is_silent /\
  match monitoringAndSendingScreen
          (bench (fun _ => 40000) released Float32.NAN WL_DISCONNECTED 200)
          (garden true 0) with
  | Ok _ w' =>
      lastConnectionTime (vars w') = 40000 /\
      existsb is_lcd (since (garden true 0) w') = true /\
      count is_post (since (garden true 0) w') = 0%nat
  | Fault _ => False
  end.
Proof.
  split.
  - intros H.
    pose (env0 := bench (fun _ => 40000) released Float32.NAN WL_CONNECTED 200).
    assert (0 <= selectedPlantIndex (vars (garden true 0))) as Hi
      by (cbn; lia).
    destruct (H env0 (garden true 0) basil
                (monitoring_world env0 (garden true 0) basil)
                eq_refl Hi eq_refl
                (monitoringAndSendingScreen_run env0 (garden true 0) basil
                   eq_refl Hi)) as [Hvars _].
    apply (f_equal lastConnectionTime) in Hvars.
    vm_compute in Hvars. discriminate.
  - vm_compute. repeat split.
Qed.

(** C2, amended.  When the temperature or the humidity reading is NaN,
    [monitoringAndSendingScreen] returns, makes no call to the cloud
    client and logs exactly one line; of the globals it changes only
    [lastConnectionTime], which it sets to the clock reading taken on
    entry; the display is touched only by the WiFi reconnection, so not
    at all when the radio is found connected. *)
Theorem dht_failure_skips_post (env : Env) (w : World) (p : PlantProfile) :
  selected_profile (vars w) = Some p ->
  0 <= selectedPlantIndex (vars w) ->
  dht_failed env w = true ->
  exists w',
    monitoringAndSendingScreen env w = Ok tt w' /\
    vars w' = set_lastConnectionTime (Int32.to_signed (tick_clock env w))
                                     (vars w) /\
    since w w' = SerialPrintln DHT_ERROR :: reconnect_events env w /\
    count is_cloud (since w w') = 0%nat /\
    count is_log (since w w') = 1%nat /\
    (is_connected (status_at env (S (reads w))) = true ->
     since w w' = [SerialPrintln DHT_ERROR]).
Proof.
  intros Hp Hi Hnan.
  exists (monitoring_world env w p).
  split; [apply monitoringAndSendingScreen_run; assumption |].
  split; [reflexivity |].
  rewrite since_monitoring_world. unfold cycle_events. rewrite Hnan.
  cbn [app].
  split; [reflexivity |].
  split.
  { change (SerialPrintln DHT_ERROR :: reconnect_events env w)
      with ([SerialPrintln DHT_ERROR] ++ reconnect_events env w).
    rewrite count_app, count_reconnect_events by auto with sketch.
    reflexivity. }
  split.
  { change (SerialPrintln DHT_ERROR :: reconnect_events env w)
      with ([SerialPrintln DHT_ERROR] ++ reconnect_events env w).
    rewrite count_app, count_reconnect_events by auto with sketch.
    reflexivity. }
  intros Hconn. unfold reconnect_events. rewrite Hconn. reflexivity.
Qed.

Lemma dht_failure_skips_post_witness :
  exists w',
    monitoringAndSendingScreen
      (bench (fun _ => 40000) released Float32.NAN WL_CONNECTED 200)
      (garden true 0) = Ok tt w' /\
    since (garden true 0) w' = [SerialPrintln DHT_ERROR].
Proof.
  destruct (dht_failure_skips_post
              (bench (fun _ => 40000) released Float32.NAN WL_CONNECTED 200)
              (garden true 0) basil eq_refl ltac:(cbn; lia) eq_refl)
    as [w' [Hrun [_ [_ [_ [_ Hquiet]]]]]].
  exists w'. split; [exact Hrun |]. apply Hquiet. reflexivity.
Defined.

(** ** A failed post *)

(** C8.  When the readings are valid and [ThingSpeak.writeFields]
    answers a code other than 200, [monitoringAndSendingScreen] returns
    with exactly one HTTP write on the trace, followed only by the error
    line; the globals are what they were when the write was made (only
    [lastConnectionTime] differs from entry, set to the clock reading
    taken on entry, whatever the code); and a later monitoring pass with
    these globals posts nothing as long as no more than 30000 ms have
    elapsed since that reading. *)
Theorem failed_post_is_only_logged (env : Env) (w : World) (p : PlantProfile) :
  selected_profile (vars w) = Some p ->
  0 <= selectedPlantIndex (vars w) ->
  dht_failed env w = false ->
  http_code env w <> 200 ->
  exists w',
    monitoringAndSendingScreen env w = Ok tt w' /\
    since w w'
    = SerialPrintln
        ("Error sending data. HTTP Code: " +++ OfInt (http_code env w))
      :: report_events p (soil_reading env w) (temperature_reading env w)
                       (humidity_reading env w)
      ++ reconnect_events env w /\
    count is_post (since w w') = 1%nat /\
    count is_log (since w w') = 1%nat /\
    vars w' = set_lastConnectionTime (Int32.to_signed (tick_clock env w))
                                     (vars w) /\
    (forall env2 w2,
        vars w2 = vars w' ->
        mode (vars w2) = Monitoring ->
        elapsed (tick_clock env2 w2) (Int32.to_signed (tick_clock env w))
        <= 30000 ->
        exists w3,
          loop env2 w2 = Ok tt w3 /\
          count is_post (since w2 w3) = 0%nat /\
          count is_log (since w2 w3) = 0%nat).
Proof.
  intros Hp Hi Hok Hcode.
  exists (monitoring_world env w p).
  split; [apply monitoringAndSendingScreen_run; assumption |].
  rewrite since_monitoring_world.
  unfold cycle_events, post_log. rewrite Hok.
  destruct (Z.eqb_spec (http_code env w) 200) as [E | _]; [contradiction |].
  split; [reflexivity |].
  split.
  { change (?e :: ?a ++ ?b) with ((e :: a) ++ b).
    rewrite count_app, count_reconnect_events by auto with sketch.
    reflexivity. }
  split.
  { change (?e :: ?a ++ ?b) with ((e :: a) ++ b).
    rewrite count_app, count_reconnect_events by auto with sketch.
    reflexivity. }
  split; [reflexivity |].
  intros env2 w2 Hv Hm Hle.
  assert (selected_profile (vars w2) = Some p) as Hp2
    by (rewrite Hv; exact Hp).
  assert (0 <= selectedPlantIndex (vars w2)) as Hi2
    by (rewrite Hv; exact Hi).
  exists (monitoring_pass_world env2 w2 p).
  split; [apply loop_monitoring_run; assumption |].
  rewrite count_is_post_pass, count_is_log_pass.
  assert (cycle_due env2 w2 = false) as Hdue.
  { unfold cycle_due. apply postingDue_false. rewrite Hv. exact Hle. }
  rewrite Hdue. split; reflexivity.
Qed.

Lemma failed_post_is_only_logged_witness :
  exists w',
    monitoringAndSendingScreen
      (bench (fun _ => 40000) released DEGREES_22_5 WL_CONNECTED 404)
      (garden true 0) = Ok tt w' /\
    count is_post (since (garden true 0) w') = 1%nat /\
    lastConnectionTime (vars w') = 40000.
Proof.
  destruct (failed_post_is_only_logged
              (bench (fun _ => 40000) released DEGREES_22_5 WL_CONNECTED 404)
              (garden true 0) basil eq_refl ltac:(cbn; lia) eq_refl
              ltac:(vm_compute; discriminate))
    as [w' [Hrun [_ [Hpost [_ [Hvars _]]]]]].
  exists w'. split; [exact Hrun |]. split; [exact Hpost |].
  rewrite Hvars. reflexivity.
Defined.

(** ** The menu index *)

Lemma selectedPlantIndex_selection_vars env w :
  selectedPlantIndex (selection_vars env w)
  = let n := numPlants (vars w) in
    let i1 := if pressed env (reads w) BUTTON_UP_PIN
              then next_index (selectedPlantIndex (vars w)) n
              else selectedPlantIndex (vars w) in
    if pressed env (S (reads w)) BUTTON_DOWN_PIN then prev_index i1 n else i1.
Proof.
  unfold selection_vars.
  destruct (pressed env (S (S (reads w))) BUTTON_SELECT_PIN); reflexivity.
Qed.

(** C5.  With the index [i] in [0, N): the UP handler sets it to
    [(i + 1) mod N] and the DOWN handler to [(i - 1 + N) mod N]; a pass
    of [selectionScreen] with only UP down, or only DOWN down, leaves
    exactly that index. *)
Theorem selection_index_wraps (env : Env) (w : World) :
  table_ok (vars w) ->
  index_ok (vars w) ->
  let i := selectedPlantIndex (vars w) in
  let N := numPlants (vars w) in
  (exists w', handleUp env w = Ok tt w' /\
              selectedPlantIndex (vars w') = (i + 1) mod N) /\
  (exists w', handleDown env w = Ok tt w' /\
              selectedPlantIndex (vars w') = (i - 1 + N) mod N) /\
  (exists w',
      selectionScreen env w = Ok tt w' /\
      (pressed env (reads w) BUTTON_UP_PIN = true ->
       pressed env (S (reads w)) BUTTON_DOWN_PIN = false ->
       selectedPlantIndex (vars w') = (i + 1) mod N) /\
      (pressed env (reads w) BUTTON_UP_PIN = false ->
       pressed env (S (reads w)) BUTTON_DOWN_PIN = true ->
       selectedPlantIndex (vars w') = (i - 1 + N) mod N) /\
      (pressed env (reads w) BUTTON_UP_PIN = false ->
       pressed env (S (reads w)) BUTTON_DOWN_PIN = false ->
       selectedPlantIndex (vars w') = i)).
Proof.
  intros Ht Hi i N.
  split; [eexists; split; [apply handleUp_run; assumption | reflexivity] |].
  split; [eexists; split; [apply handleDown_run; assumption | reflexivity] |].
  destruct (selectionScreen_run env w Ht Hi) as [w' [Hrun [Hvars _]]].
  exists w'. split; [exact Hrun |].
  rewrite Hvars, selectedPlantIndex_selection_vars. cbv zeta.
  repeat split; intros Hup Hdown; rewrite Hup, Hdown; reflexivity.
Qed.

Lemma selection_index_wraps_witness :
  exists w',
    selectionScreen
      (bench (fun _ => 0) (held BUTTON_DOWN_PIN) DEGREES_22_5 WL_CONNECTED 200)
      (garden false 0) = Ok tt w' /\
    selectedPlantIndex (vars w') = 1.
Proof.
  destruct (selection_index_wraps
              (bench (fun _ => 0) (held BUTTON_DOWN_PIN) DEGREES_22_5
                     WL_CONNECTED 200)
              (garden false 0))
    as [_ [_ [w' [Hrun [_ [Hdown _]]]]]].
  - split; [reflexivity | cbn; lia].
  - unfold index_ok; cbn; lia.
  - exists w'. split; [exact Hrun |].
    rewrite Hdown by reflexivity. reflexivity.
Defined.

(** ** Totality of the passes *)

Lemma selected_profile_some g :
  Inv g -> exists p, selected_profile g = Some p.
Proof.
  intros [[Hlen Hn] Hi]. red in Hi. unfold selected_profile.
  destruct (nth_error (plantProfiles g) (Z.to_nat (selectedPlantIndex g)))
    as [p |] eqn:E; [exists p; reflexivity |].
  apply nth_error_None in E. lia.
Qed.

Lemma Inv_selection_vars env w : Inv (vars w) -> Inv (selection_vars env w).
Proof.
  intros [Ht Hi]. pose proof Ht as [_ [Hn _]].
  split.
  - unfold selection_vars.
    destruct (pressed env (S (S (reads w))) BUTTON_SELECT_PIN); exact Ht.
  - red. rewrite selectedPlantIndex_selection_vars. cbv zeta.
    replace (numPlants (selection_vars env w)) with (numPlants (vars w))
      by (unfold selection_vars;
          destruct (pressed env (S (S (reads w))) BUTTON_SELECT_PIN);
          reflexivity).
    destruct (pressed env (S (reads w)) BUTTON_DOWN_PIN);
      [apply prev_index_range; exact Hn |].
    destruct (pressed env (reads w) BUTTON_UP_PIN);
      [apply next_index_range; exact Hn | exact Hi].
Qed.

Lemma Inv_monitoring_pass_world env w p :
  Inv (vars w) -> Inv (vars (monitoring_pass_world env w p)).
Proof.
  intros H. unfold monitoring_pass_world, before_select.
  destruct (cycle_due env w);
    match goal with
    | |- context [pressed ?e ?k ?pin] => destruct (pressed e k pin)
    end; exact H.
Qed.

Lemma runCalibrationMode_run env w :
  exists w', runCalibrationMode env w = Ok tt w' /\ vars w' = vars w.
Proof. eexists. split; reflexivity. Qed.

Lemma setup_run env w :
  exists w',
    setup env w = Ok tt w' /\
    vars w' = set_calibrationMode (pressed env (reads w) BUTTON_SELECT_PIN)
                                  (vars w).
Proof.
  unfold setup, pressed. exec.
  destruct (level_eqb (digitalRead_at env (reads w) BUTTON_SELECT_PIN) LOW).
  - eexists. split; reflexivity.
  - exec. rewrite connectWiFi_run. exec.
    eexists. split; [reflexivity |]. cbn [vars].
    apply vars_connectWiFi_world.
Qed.

Lemma loop_preserves_Inv env w :
  Inv (vars w) -> exists w', loop env w = Ok tt w' /\ Inv (vars w').
Proof.
  intros HI. pose proof HI as [Ht Hi].
  destruct (mode (vars w)) eqn:Hm.
  - unfold mode in Hm. unfold loop. exec.
    destruct (calibrationMode (vars w));
      [| destruct (plantWasChosen (vars w)); discriminate].
    destruct (runCalibrationMode_run env w) as [w' [Hrun Hv]].
    exists w'. split; [exact Hrun |]. rewrite Hv. exact HI.
  - unfold mode in Hm. unfold loop. exec.
    destruct (calibrationMode (vars w)); [discriminate |].
    destruct (plantWasChosen (vars w)); [discriminate |]. cbn [negb].
    destruct (selectionScreen_run env w Ht Hi) as [w' [Hrun [Hv _]]].
    exists w'. split; [exact Hrun |]. rewrite Hv.
    apply Inv_selection_vars, HI.
  - destruct (selected_profile_some _ HI) as [p Hp].
    exists (monitoring_pass_world env w p).
    split; [apply loop_monitoring_run; (assumption || apply Hi) |].
    apply Inv_monitoring_pass_world, HI.
Qed.

Lemma loops_preserve_Inv env n :
  forall w, Inv (vars w) ->
            exists w', loops n env w = Ok tt w' /\ Inv (vars w').
Proof.
  induction n as [| n IH]; intros w HI.
  - exists w. split; [reflexivity | exact HI].
  - destruct (loop_preserves_Inv env w HI) as [w1 [Hrun1 HI1]].
    destruct (IH w1 HI1) as [w2 [Hrun2 HI2]].
    exists w2. split; [| exact HI2].
    cbn [loops]. rewrite (bind_run _ _ _ _ _ _ Hrun1). exact Hrun2.
Qed.

Lemma Inv_initial_globals profiles :
  1 <= Z.of_nat (List.length profiles) <= 2 ^ 30 ->
  Inv (initial_globals profiles).
Proof.
  intros H.
  assert (numPlants (initial_globals profiles)
          = Z.of_nat (List.length profiles)) as Hn.
  { cbn [initial_globals numPlants].
    apply Int32Facts.to_signed_small. int_bounds. lia. }
  split; [split |]; [exact Hn | rewrite Hn; exact H |].
  red. rewrite Hn. cbn [initial_globals selectedPlantIndex]. lia.
Qed.

Lemma run_preserves_Inv env n profiles :
  1 <= Z.of_nat (List.length profiles) <= 2 ^ 30 ->
  exists w', run n env (boot profiles) = Ok tt w' /\ Inv (vars w').
Proof.
  intros H. apply Inv_initial_globals in H.
  destruct (setup_run env (boot profiles)) as [w1 [Hrun1 Hv1]].
  assert (Inv (vars w1)) as HI1 by (rewrite Hv1; exact H).
  destruct (loops_preserve_Inv env n w1 HI1) as [w2 [Hrun2 HI2]].
  exists w2. split; [| exact HI2].
  unfold run. rewrite (bind_run _ _ _ _ _ _ Hrun1). exact Hrun2.
Qed.

(** ** The profile table is never written *)

Section KeepsTable.

Variable ps : list PlantProfile.
Variable n : Z.

Lemma keeps_ret {A} (a : A) : keeps_table ps n (ret a).
Proof. intros env w H. exact H. Qed.

Lemma keeps_bind {A B} (m : M A) (k : A -> M B) :
  keeps_table ps n m ->
  (forall a, keeps_table ps n (k a)) ->
  keeps_table ps n (bind m k).
Proof.
  intros Hm Hk env w H. unfold bind.
  specialize (Hm env w H).
  destruct (m env w) as [a w' | f]; [| exact Hm].
  apply Hk, Hm.
Qed.

Lemma keeps_emit e : keeps_table ps n (emit e).
Proof. intros env w H. exact H. Qed.

Lemma keeps_input {A} (answer : Env -> nat -> A) :
  keeps_table ps n (input answer).
Proof. intros env w H. exact H. Qed.

Lemma keeps_gets {A} (f : Globals -> A) : keeps_table ps n (gets f).
Proof. intros env w H. exact H. Qed.

Lemma keeps_modify f :
  (forall g, plantProfiles (f g) = plantProfiles g /\
             numPlants (f g) = numPlants g) ->
  keeps_table ps n (modify f).
Proof.
  intros Hf env w [Hp Hn]. cbn. destruct (Hf (vars w)) as [Ep En].
  split; congruence.
Qed.

Lemma keeps_fail {A} f : f <> DivideByZero -> keeps_table ps n (@fail A f).
Proof. intros Hf env w _ _. exact Hf. Qed.

Lemma keeps_if {A} (b : bool) (m1 m2 : M A) :
  keeps_table ps n m1 -> keeps_table ps n m2 ->
  keeps_table ps n (if b then m1 else m2).
Proof. destruct b; auto. Qed.

Lemma keeps_when b m : keeps_table ps n m -> keeps_table ps n (when b m).
Proof. intros H. apply keeps_if; [exact H | apply keeps_ret]. Qed.

Lemma keeps_int_add a b : keeps_table ps n (int_add a b).
Proof.
  unfold int_add. apply keeps_if; [apply keeps_ret |].
  apply keeps_fail. discriminate.
Qed.

Lemma keeps_int_sub a b : keeps_table ps n (int_sub a b).
Proof.
  unfold int_sub. apply keeps_if; [apply keeps_ret |].
  apply keeps_fail. discriminate.
Qed.

Lemma keeps_int_neg a : keeps_table ps n (int_neg a).
Proof.
  unfold int_neg. apply keeps_if; [apply keeps_ret |].
  apply keeps_fail. discriminate.
Qed.

Lemma keeps_plantProfiles_at i : keeps_table ps n (plantProfiles_at i).
Proof.
  intros env w H. unfold plantProfiles_at. exec.
  destruct (i <? 0); [discriminate |].
  destruct (nth_error (plantProfiles (vars w)) (Z.to_nat i));
    [exact H | discriminate].
Qed.

(** The remainder is the only operation that can divide by zero, and
    the handlers take it by [numPlants]. *)
Lemma keeps_handleUp : keeps_table ps n handleUp.
Proof.
  intros env w H. pose proof H as [_ Hn]. unfold handleUp. exec.
  unfold int_add.
  destruct (Int32.in_int (selectedPlantIndex (vars w) + 1));
    [| discriminate].
  exec. unfold int_rem. rewrite Hn.
  destruct (Z.eqb_spec n 0) as [E | E]; [intros E'; contradiction |].
  destruct ((selectedPlantIndex (vars w) + 1 =? Int32.INT_MIN) && (n =? -1));
    [discriminate |].
  exact H.
Qed.

Lemma keeps_handleDown : keeps_table ps n handleDown.
Proof.
  intros env w H. pose proof H as [_ Hn]. unfold handleDown. exec.
  unfold int_sub.
  destruct (Int32.in_int (selectedPlantIndex (vars w) - 1));
    [| discriminate].
  exec. unfold int_add. rewrite Hn.
  destruct (Int32.in_int (selectedPlantIndex (vars w) - 1 + n));
    [| discriminate].
  exec. unfold int_rem.
  destruct (Z.eqb_spec n 0) as [E | E]; [intros E'; contradiction |].
  destruct ((selectedPlantIndex (vars w) - 1 + n =? Int32.INT_MIN)
            && (n =? -1));
    [discriminate |].
  exact H.
Qed.

(** Take a sketch function apart along its binds and branches. *)
Ltac keeps :=
  unfold millis, digitalRead, analogRead, delay, lcd_clear, lcd_setCursor,
    lcd_print, Serial_println, dht_readTemperature, dht_readHumidity,
    WiFi_status, WiFi_begin, ThingSpeak_setField, ThingSpeak_setStatus,
    ThingSpeak_writeFields;
  repeat lazymatch goal with
    | |- keeps_table _ _ (bind _ _) => apply keeps_bind; [| intro]
    | |- keeps_table _ _ (ret _) => apply keeps_ret
    | |- keeps_table _ _ (emit _) => apply keeps_emit
    | |- keeps_table _ _ (input _) => apply keeps_input
    | |- keeps_table _ _ (gets _) => apply keeps_gets
    | |- keeps_table _ _ (modify _) =>
        apply keeps_modify; intros g; split; reflexivity
    | |- keeps_table _ _ (fail _) => apply keeps_fail; discriminate
    | |- keeps_table _ _ (when _ _) => apply keeps_when
    | |- keeps_table _ _ (if _ then _ else _) => apply keeps_if
    | |- keeps_table _ _ (let _ := _ in _) => cbv zeta
    | |- keeps_table _ _ (int_add _ _) => apply keeps_int_add
    | |- keeps_table _ _ (int_sub _ _) => apply keeps_int_sub
    | |- keeps_table _ _ (int_neg _) => apply keeps_int_neg
    | |- keeps_table _ _ (plantProfiles_at _) => apply keeps_plantProfiles_at
    | |- keeps_table _ _ handleUp => apply keeps_handleUp
    | |- keeps_table _ _ handleDown => apply keeps_handleDown
    end.

Lemma keeps_connectWiFi_wait fuel :
  forall attempts, keeps_table ps n (connectWiFi_wait fuel attempts).
Proof.
  induction fuel as [| fuel IH]; intros attempts; cbn [connectWiFi_wait].
  - keeps.
  - keeps. apply IH.
Qed.

Lemma keeps_connectWiFi : keeps_table ps n connectWiFi.
Proof.
  unfold connectWiFi. keeps. apply keeps_connectWiFi_wait.
Qed.

Lemma keeps_runCalibrationMode : keeps_table ps n runCalibrationMode.
Proof. unfold runCalibrationMode. keeps. Qed.

Lemma keeps_handleSelect : keeps_table ps n handleSelect.
Proof. unfold handleSelect. keeps. Qed.

Lemma keeps_selectionScreen : keeps_table ps n selectionScreen.
Proof. unfold selectionScreen. keeps. apply keeps_handleSelect. Qed.

Lemma keeps_monitoringAndSendingScreen :
  keeps_table ps n monitoringAndSendingScreen.
Proof.
  unfold monitoringAndSendingScreen. keeps; try apply keeps_connectWiFi.
Qed.

Lemma keeps_returnToSelection : keeps_table ps n returnToSelection.
Proof. unfold returnToSelection. keeps. Qed.

Lemma keeps_loop : keeps_table ps n loop.
Proof.
  unfold loop. keeps;
    first [ apply keeps_runCalibrationMode | apply keeps_selectionScreen
          | apply keeps_monitoringAndSendingScreen
          | apply keeps_returnToSelection ].
Qed.

Lemma keeps_setup : keeps_table ps n setup.
Proof. unfold setup. keeps; apply keeps_connectWiFi. Qed.

Lemma keeps_loops k : keeps_table ps n (loops k).
Proof.
  induction k as [| k IH]; cbn [loops]; [apply keeps_ret |].
  apply keeps_bind; [apply keeps_loop | intros _; exact IH].
Qed.

Lemma keeps_run k : keeps_table ps n (run k).
Proof.
  unfold run. apply keeps_bind; [apply keeps_setup |].
  intros _. apply keeps_loops.
Qed.

End KeepsTable.

Lemma run_keeps_table env k w w' :
  run k env w = Ok tt w' ->
  plantProfiles (vars w') = plantProfiles (vars w) /\
  numPlants (vars w') = numPlants (vars w).
Proof.
  intros Hrun.
  pose proof (keeps_run (plantProfiles (vars w)) (numPlants (vars w)) k env w
                (conj eq_refl eq_refl)) as Hk.
  rewrite Hrun in Hk. exact Hk.
Qed.

Lemma keeps_operations ps n op :
  In op operations -> keeps_table ps n op.
Proof.
  unfold operations. cbn [In].
  intros [<- | [<- | [<- | [<- | [<- | [<- | [<- | [<- | [<- | [<- | []]]]]]]]]]].
  - apply keeps_setup.
  - apply keeps_loop.
  - apply keeps_runCalibrationMode.
  - apply keeps_selectionScreen.
  - apply keeps_monitoringAndSendingScreen.
  - apply keeps_connectWiFi.
  - apply keeps_handleUp.
  - apply keeps_handleDown.
  - apply keeps_handleSelect.
  - apply keeps_returnToSelection.
Qed.

(** C9.  Whatever the environment and the world it starts in, every
    operation of the program that returns ([setup], [loop], the three
    screens, the WiFi handler, the button handlers), and so every run of
    [setup] followed by any number of passes of [loop], returns with
    [plantProfiles] and [numPlants] as it found them. *)
Theorem profile_table_is_never_written
    (op : M unit) (env : Env) (w w' : World) :
  In op operations \/ (exists k, op = loops k) \/ (exists k, op = run k) ->
  op env w = Ok tt w' ->
  plantProfiles (vars w') = plantProfiles (vars w) /\
  numPlants (vars w') = numPlants (vars w).
Proof.
  intros Hop Hrun.
  assert (keeps_table (plantProfiles (vars w)) (numPlants (vars w)) op) as Hk.
  { destruct Hop as [Hin | [[k ->] | [k ->]]].
    - apply keeps_operations, Hin.
    - apply keeps_loops.
    - apply keeps_run. }
  specialize (Hk env w (conj eq_refl eq_refl)).
  rewrite Hrun in Hk. exact Hk.
Qed.

Lemma profile_table_is_never_written_witness :
  exists w',
    run 3 (bench (fun _ => 40000) (pressed_at 3 BUTTON_SELECT_PIN)
                 DEGREES_22_5 WL_CONNECTED 200)
        (boot [basil; fern]) = Ok tt w' /\
    plantProfiles (vars w') = [basil; fern] /\
    numPlants (vars w') = 2.
Proof.
  eexists. split; [vm_compute; reflexivity |].
  apply (profile_table_is_never_written
           (run 3)
           (bench (fun _ => 40000) (pressed_at 3 BUTTON_SELECT_PIN)
                  DEGREES_22_5 WL_CONNECTED 200)
           (boot [basil; fern])).
  - right. right. exists 3%nat. reflexivity.
  - vm_compute. reflexivity.
Defined.
(** C7.  For a table of at least one profile, [selectedPlantIndex]
    starts at 0, inside [0, numPlants); [setup] followed by any number of
    passes of [loop] returns with the index inside [0, numPlants); and
    each of the three button handlers, and [selectionScreen] as a whole,
    returns with the index inside [0, numPlants) when entered with it
    there. *)
Theorem selectedPlantIndex_stays_in_range
    (env : Env) (profiles : list PlantProfile) (n : nat) :
  1 <= Z.of_nat (List.length profiles) <= 2 ^ 30 ->
  selectedPlantIndex (initial_globals profiles) = 0 /\
  index_ok (initial_globals profiles) /\
  (exists w',
      run n env (boot profiles) = Ok tt w' /\
      numPlants (vars w') = Z.of_nat (List.length profiles) /\
      0 <= selectedPlantIndex (vars w') < numPlants (vars w')) /\
  (forall w,
      table_ok (vars w) ->
      index_ok (vars w) ->
      (exists w', handleUp env w = Ok tt w' /\ index_ok (vars w')) /\
      (exists w', handleDown env w = Ok tt w' /\ index_ok (vars w')) /\
      (exists w', handleSelect env w = Ok tt w' /\ index_ok (vars w')) /\
      (exists w', selectionScreen env w = Ok tt w' /\ index_ok (vars w'))).
Proof.
  intros H.
  split; [reflexivity |].
  split; [apply Inv_initial_globals, H |].
  split.
  { destruct (run_preserves_Inv env n profiles H) as [w' [Hrun HI]].
    exists w'. split; [exact Hrun |].
    destruct HI as [[Hlen Hn] Hi]. split; [| exact Hi].
    destruct (run_keeps_table env n (boot profiles) w' Hrun)
      as [_ Hsame].
    rewrite Hsame. apply Inv_initial_globals, H. }
  intros w Ht Hi. pose proof Ht as [_ [Hn _]].
  split.
  { eexists. split; [apply handleUp_run; assumption |].
    apply next_index_range, Hn. }
  split.
  { eexists. split; [apply handleDown_run; assumption |].
    apply prev_index_range, Hn. }
  split.
  { eexists. split; [apply handleSelect_run; assumption |]. exact Hi. }
  destruct (selectionScreen_run env w Ht Hi) as [w' [Hrun [Hv _]]].
  exists w'. split; [exact Hrun |]. rewrite Hv.
  apply Inv_selection_vars. split; assumption.
Qed.

Lemma selectedPlantIndex_stays_in_range_witness :
  exists w',
    run 5 (bench (fun _ => 40000) (held BUTTON_UP_PIN) DEGREES_22_5
                 WL_CONNECTED 200)
        (boot [basil; fern]) = Ok tt w' /\
    numPlants (vars w') = 2 /\
    0 <= selectedPlantIndex (vars w') < numPlants (vars w').
Proof.
  assert (1 <= Z.of_nat (List.length [basil; fern]) <= 2 ^ 30) as Hsize
    by (cbn; lia).
  exact (proj1 (proj2 (proj2
           (selectedPlantIndex_stays_in_range
              (bench (fun _ => 40000) (held BUTTON_UP_PIN) DEGREES_22_5
                     WL_CONNECTED 200)
              [basil; fern] 5 Hsize)))).
Defined.

(** ** The remainder by [numPlants] *)

(** C10.  The handlers divide by [numPlants].  With [numPlants = 0] and
    an index whose neighbours are representable, both handlers divide by
    zero.  With [numPlants >= 1] the remainder is defined for every
    dividend, and neither the handlers nor [selectionScreen] nor a whole
    pass of [loop] can divide by zero, whatever the buttons; with the
    index in range on top of that, the handlers and [selectionScreen]
    return. *)
Theorem remainder_by_numPlants_is_defined (env : Env) (w : World) :
  (numPlants (vars w) = 0 ->
   Int32.INT_MIN < selectedPlantIndex (vars w) < Int32.INT_MAX ->
   handleUp env w = Fault DivideByZero /\
   handleDown env w = Fault DivideByZero) /\
  (1 <= numPlants (vars w) ->
   (forall a, int_rem a (numPlants (vars w)) env w
              = Ok (Z.rem a (numPlants (vars w))) w) /\
   handleUp env w <> Fault DivideByZero /\
   handleDown env w <> Fault DivideByZero /\
   selectionScreen env w <> Fault DivideByZero /\
   loop env w <> Fault DivideByZero /\
   (table_ok (vars w) ->
    index_ok (vars w) ->
    (exists w', handleUp env w = Ok tt w') /\
    (exists w', handleDown env w = Ok tt w') /\
    (exists w', selectionScreen env w = Ok tt w'))).
Proof.
  split.
  - intros Hzero Hi. split.
    + unfold handleUp. exec. rewrite Hzero.
      rewrite int_add_run by lia. reflexivity.
    + unfold handleDown. exec. rewrite Hzero.
      rewrite int_sub_run by lia. exec.
      rewrite int_add_run by lia. reflexivity.
  - intros Hn.
    assert (forall op : M unit,
               keeps_table (plantProfiles (vars w)) (numPlants (vars w)) op ->
               op env w <> Fault DivideByZero) as Hsafe.
    { intros op Hk Hfault.
      specialize (Hk env w (conj eq_refl eq_refl)).
      rewrite Hfault in Hk. apply Hk; [lia | reflexivity]. }
    split.
    { intros a. unfold int_rem.
      destruct (Z.eqb_spec (numPlants (vars w)) 0); [lia |].
      destruct (Z.eqb_spec (numPlants (vars w)) (-1)); [lia |].
      rewrite andb_false_r. reflexivity. }
    split; [apply Hsafe, keeps_handleUp |].
    split; [apply Hsafe, keeps_handleDown |].
    split; [apply Hsafe, keeps_selectionScreen |].
    split; [apply Hsafe, keeps_loop |].
    intros Ht Hi.
    split; [eexists; apply handleUp_run; assumption |].
    split; [eexists; apply handleDown_run; assumption |].
    destruct (selectionScreen_run env w Ht Hi) as [w' [Hrun _]].
    exists w'. exact Hrun.
Qed.

Lemma remainder_by_numPlants_is_defined_witness :
  handleUp (bench (fun _ => 0) released DEGREES_22_5 WL_CONNECTED 200)
           (garden false 0) <> Fault DivideByZero /\
  exists w',
    selectionScreen
      (bench (fun _ => 0) released DEGREES_22_5 WL_CONNECTED 200)
      (garden false 0) = Ok tt w'.
Proof.
  destruct (remainder_by_numPlants_is_defined
              (bench (fun _ => 0) released DEGREES_22_5 WL_CONNECTED 200)
              (garden false 0)) as [_ H].
  destruct H as [_ [Hup [_ [_ [_ Htotal]]]]]; [cbn; lia |].
  split; [exact Hup |].
  destruct Htotal as [_ [_ Hscreen]].
  - split; [reflexivity | cbn; lia].
  - unfold index_ok; cbn; lia.
  - exact Hscreen.
Defined.

(** ** Mode transitions *)

Lemma mode_selection_vars env w :
  mode (vars w) = Selecting ->
  mode (selection_vars env w)
  = if pressed env (S (S (reads w))) BUTTON_SELECT_PIN
    then Monitoring else Selecting.
Proof.
  unfold mode, selection_vars. intros Hm.
  destruct (calibrationMode (vars w)) eqn:Hc; [discriminate |].
  destruct (plantWasChosen (vars w)) eqn:Hch; [discriminate |].
  destruct (pressed env (S (S (reads w))) BUTTON_SELECT_PIN);
    cbn; rewrite Hc, ?Hch; reflexivity.
Qed.

Lemma loop_selecting env w :
  mode (vars w) = Selecting -> loop env w = selectionScreen env w.
Proof.
  unfold mode, loop. exec. intros Hm.
  destruct (calibrationMode (vars w)); [discriminate |].
  destruct (plantWasChosen (vars w)); [discriminate |]. reflexivity.
Qed.

Lemma loop_calibration env w :
  mode (vars w) = Calibration -> loop env w = runCalibrationMode env w.
Proof.
  unfold mode, loop. exec. intros Hm.
  destruct (calibrationMode (vars w)); [reflexivity |].
  destruct (plantWasChosen (vars w)); discriminate.
Qed.

(** A SELECT press in the menu: the pass ends in monitoring mode, on the
    index that the UP and DOWN handlers of the same pass have left, with
    the post timer at [-postingInterval]. *)
Lemma select_press_enters_monitoring env w :
  Inv (vars w) ->
  mode (vars w) = Selecting ->
  pressed env (S (S (reads w))) BUTTON_SELECT_PIN = true ->
  exists w',
    loop env w = Ok tt w' /\
    mode (vars w') = Monitoring /\
    lastConnectionTime (vars w') = - postingInterval /\
    selectedPlantIndex (vars w') = selectedPlantIndex (selection_vars env w) /\
    Inv (vars w').
Proof.
  intros HI Hm Hsel. pose proof HI as [Ht Hi].
  destruct (selectionScreen_run env w Ht Hi) as [w' [Hrun [Hv _]]].
  exists w'. rewrite loop_selecting by exact Hm.
  split; [exact Hrun |]. rewrite Hv.
  split; [rewrite mode_selection_vars, Hsel by exact Hm; reflexivity |].
  split; [unfold selection_vars; rewrite Hsel; reflexivity |].
  split; [reflexivity | apply Inv_selection_vars, HI].
Qed.

(** With the timer at [-postingInterval], the first monitoring pass is
    due exactly for clock readings strictly between 0 and
    2^32 - 30000. *)
Lemma postingDue_after_select now :
  0 <= now < Int32.modulus ->
  postingDue now (- postingInterval) = true
  <-> 0 < now < Int32.modulus - 30000.
Proof.
  intros Hnow. rewrite postingDue_spec. unfold elapsed.
  change (Int32.to_unsigned (- postingInterval)) with 4294937296.
  unfold Int32.to_unsigned, Int32.modulus in *.
  change (2 ^ 32) with 4294967296 in *.
  destruct (Z_lt_le_dec now 4294937296) as [Hlt | Hge].
  - rewrite <- (Z_mod_plus_full (now - 4294937296) 1 4294967296).
    rewrite Z.mod_small by lia. lia.
  - rewrite Z.mod_small by lia. lia.
Qed.

Lemma mode_before_select env w p :
  mode (vars (before_select env w p)) = mode (vars w).
Proof. unfold before_select. destruct (cycle_due env w); reflexivity. Qed.

Lemma mode_returned g :
  mode g = Monitoring -> mode (set_plantWasChosen false g) = Selecting.
Proof.
  unfold mode. cbn.
  destruct (calibrationMode g); [discriminate | reflexivity].
Qed.

(** A SELECT press while monitoring: the pass ends in the menu. *)
Lemma select_press_leaves_monitoring env w p :
  mode (vars w) = Monitoring ->
  selected_profile (vars w) = Some p ->
  0 <= selectedPlantIndex (vars w) ->
  pressed env (reads (before_select env w p)) BUTTON_SELECT_PIN = true ->
  exists w', loop env w = Ok tt w' /\ mode (vars w') = Selecting.
Proof.
  intros Hm Hp Hi Hsel.
  exists (monitoring_pass_world env w p).
  split; [apply loop_monitoring_run; assumption |].
  unfold monitoring_pass_world. rewrite Hsel. cbn [vars].
  apply mode_returned. rewrite mode_before_select. exact Hm.
Qed.

(** The mode changes in no other way: a pass of [loop] that changes the
    mode has polled SELECT down as its last read, and has gone from the
    menu to monitoring or from monitoring to the menu. *)
Lemma mode_changes_only_on_select env w w' :
  Inv (vars w) ->
  loop env w = Ok tt w' ->
  mode (vars w') <> mode (vars w) ->
  pressed env (pred (reads w')) BUTTON_SELECT_PIN = true /\
  (mode (vars w) = Selecting /\ mode (vars w') = Monitoring \/
   mode (vars w) = Monitoring /\ mode (vars w') = Selecting).
Proof.
  intros HI Hrun Hchange. pose proof HI as [Ht Hi].
  destruct (mode (vars w)) eqn:Hm.
  - exfalso. apply Hchange.
    rewrite loop_calibration in Hrun by exact Hm.
    destruct (runCalibrationMode_run env w) as [w1 [Hrun1 Hv]].
    rewrite Hrun1 in Hrun. injection Hrun as <-.
    rewrite Hv. exact Hm.
  - rewrite loop_selecting in Hrun by exact Hm.
    destruct (selectionScreen_run env w Ht Hi) as [w1 [Hrun1 [Hv [Hr _]]]].
    rewrite Hrun1 in Hrun. injection Hrun as <-.
    rewrite Hv, mode_selection_vars in * by exact Hm. rewrite Hr. cbn [pred].
    destruct (pressed env (S (S (reads w))) BUTTON_SELECT_PIN);
      [| contradiction].
    split; [reflexivity |]. left. split; reflexivity.
  - destruct (selected_profile_some _ HI) as [p Hp].
    rewrite (loop_monitoring_run env w p Hm Hp (proj1 Hi)) in Hrun.
    injection Hrun as <-. revert Hchange.
    unfold monitoring_pass_world.
    destruct (pressed env (reads (before_select env w p)) BUTTON_SELECT_PIN)
      eqn:Hsel; cbn [vars reads pred].
    + intros _. split; [exact Hsel |]. right. split; [reflexivity |].
      apply mode_returned. rewrite mode_before_select. exact Hm.
    + intros Hchange. exfalso. apply Hchange.
      rewrite mode_before_select. exact Hm.
Qed.

(** C4.  SELECT is pressed in the menu when the clock stands less than
    30000 ms before its wrap-around at 2^32: the pass enters monitoring
    mode with the timer at -30000, and the next pass, at clock
    4294960000, is in monitoring mode and still runs no cycle: the
    unsigned difference is 22704. *)
Theorem first_reading_waits_for_clock_wrap :
  let env := bench (fun _ => 4294960000) (pressed_at 2 BUTTON_SELECT_PIN)
                   DEGREES_22_5 WL_CONNECTED 200 in
  exists w1 w2,
    loop env (garden false 0) = Ok tt w1 /\
    mode (vars w1) = Monitoring /\
    selectedPlantIndex (vars w1) = 0 /\
    lastConnectionTime (vars w1) = -30000 /\
    elapsed (tick_clock env w1) (lastConnectionTime (vars w1)) = 22704 /\
    loop env w1 = Ok tt w2 /\
    mode (vars w2) = Monitoring /\
    since w1 w2 = [].
Proof.
  intros env. eexists. eexists.
  split; [vm_compute; reflexivity |].
  vm_compute. repeat split.
Qed.

(** ** The WiFi connection handler *)

(** C6.  [connectWiFi] always returns and never touches the globals.
    Found connected, it adds nothing to the trace.  Otherwise it starts
    the association and waits at most 20 times, 500 ms each time (at
    most 10000 ms in the loop), stopping early only on a poll that
    answers connected; it then prints "Connected!" or "Connection
    failed" according to the status it polls after the loop, and does
    nothing to the radio after that, so a failed attempt leaves it
    disconnected; when every poll fails the loop waits exactly 10000 ms
    and the display shows "Connection failed".  The next monitoring
    cycle that finds the radio disconnected starts a new association. *)
Theorem connectWiFi_bounded_and_idempotent (env : Env) (w : World) :
  exists w',
    connectWiFi env w = Ok tt w' /\
    vars w' = vars w /\
    (is_connected (status_at env (reads w)) = true -> since w w' = []) /\
    (is_connected (status_at env (reads w)) = false ->
     exists (j : nat) (final : wl_status_t),
       (j <= 20)%nat /\
       (forall i, (i < j)%nat ->
                  is_connected (status_at env (reads w + 1 + i)) = false) /\
       ((j < 20)%nat ->
        is_connected (status_at env (reads w + 1 + j)) = true) /\
       final = status_at env (reads w + j + 2) /\
       since w w' = connectWiFi_events j (connectWiFi_report final) /\
       delay_total (waiting j) = 500 * Z.of_nat j /\
       delay_total (waiting j) <= 10000 /\
       (is_connected final = false <->
        connectWiFi_report final = Lit "Connection failed") /\
       (is_connected final = true <->
        connectWiFi_report final = Lit "Connected!") /\
       ((forall k : nat, is_connected (status_at env k) = false) ->
        j = 20%nat /\
        delay_total (waiting j) = 10000 /\
        connectWiFi_report final = Lit "Connection failed")) /\
    (forall p,
        selected_profile (vars w) = Some p ->
        0 <= selectedPlantIndex (vars w) ->
        is_connected (status_at env (S (reads w))) = false ->
        is_connected (status_at env (S (S (reads w)))) = false ->
        exists w'',
          monitoringAndSendingScreen env w = Ok tt w'' /\
          In (WiFiBegin ssid password) (since w w'')).
Proof.
  exists (connectWiFi_world env w).
  split; [apply connectWiFi_run |].
  split; [apply vars_connectWiFi_world |].
  split; [| split].
  - intros E. apply since_same. unfold connectWiFi_world. rewrite E.
    reflexivity.
  - intros E.
    set (j := failed_polls env (S (reads w)) 20).
    assert (j <= 20)%nat as Hj by apply failed_polls_le.
    exists j, (status_at env (reads w + j + 2)).
    split; [exact Hj |].
    split.
    { intros i Hi.
      replace (reads w + 1 + i)%nat with (i + S (reads w))%nat by lia.
      apply (failed_polls_before env (S (reads w)) 20). exact Hi. }
    split.
    { intros Hlt.
      replace (reads w + 1 + j)%nat with (j + S (reads w))%nat by lia.
      apply failed_polls_stop. exact Hlt. }
    split; [reflexivity |].
    split.
    { apply since_app. unfold connectWiFi_world. rewrite E. cbn [trace].
      fold j.
      replace (S (j + S (reads w))) with (reads w + j + 2)%nat by lia.
      reflexivity. }
    split; [apply delay_total_waiting |].
    split; [rewrite delay_total_waiting; lia |].
    unfold connectWiFi_report.
    split; [destruct (is_connected (status_at env (reads w + j + 2)));
            split; (reflexivity || discriminate) |].
    split; [destruct (is_connected (status_at env (reads w + j + 2)));
            split; (reflexivity || discriminate) |].
    intros Hall.
    assert (j = 20%nat) as Hj20
      by (apply failed_polls_all; intros; apply Hall).
    rewrite Hall, delay_total_waiting, Hj20. repeat split.
  - intros p Hp Hi Hdown Hstill.
    exists (monitoring_world env w p).
    split; [apply monitoringAndSendingScreen_run; assumption |].
    rewrite since_monitoring_world. apply in_or_app. right.
    unfold reconnect_events. rewrite Hdown.
    unfold wifi_events. cbn [monitoring_start reads]. rewrite Hstill.
    unfold connectWiFi_events.
    do 5 right. apply in_or_app. right. cbn. tauto.
Qed.

Lemma connectWiFi_bounded_and_idempotent_witness :
  exists w',
    connectWiFi (bench (fun _ => 0) released DEGREES_22_5 WL_DISCONNECTED 200)
                (garden false 0) = Ok tt w' /\
    since (garden false 0) w'
    = connectWiFi_events 20 (Lit "Connection failed") /\
    delay_total (since (garden false 0) w') = 11000.
Proof.
  destruct (connectWiFi_bounded_and_idempotent
              (bench (fun _ => 0) released DEGREES_22_5 WL_DISCONNECTED 200)
              (garden false 0))
    as [w' [Hrun [_ [_ [Hretry _]]]]].
  exists w'. split; [exact Hrun |].
  destruct (Hretry eq_refl)
    as [j [final [_ [_ [_ [_ [Hsince [_ [_ [_ [_ Hall]]]]]]]]]]].
  destruct (Hall (fun _ => eq_refl)) as [Hj [_ Hreport]].
  rewrite Hsince, Hreport, Hj. split; reflexivity.
Defined.

(** * Further properties of the sketch *)

(** ** The menu: round trips and ends *)

Lemma prev_next_index i n : 0 <= i < n -> prev_index (next_index i n) n = i.
Proof.
  intros H. unfold prev_index, next_index.
  replace ((i + 1) mod n - 1 + n) with ((i + 1) mod n + (n - 1)) by lia.
  rewrite Zplus_mod_idemp_l.
  replace (i + 1 + (n - 1)) with (i + 1 * n) by lia.
  rewrite Z_mod_plus_full. apply Z.mod_small. exact H.
Qed.

Lemma next_prev_index i n : 0 <= i < n -> next_index (prev_index i n) n = i.
Proof.
  intros H. unfold prev_index, next_index.
  rewrite Zplus_mod_idemp_l.
  replace (i - 1 + n + 1) with (i + 1 * n) by lia.
  rewrite Z_mod_plus_full. apply Z.mod_small. exact H.
Qed.

(** X1.  With the index in range, the UP handler followed by the DOWN
    handler, and the DOWN handler followed by the UP handler, return
    with the index they started from; so does a pass of
    [selectionScreen] in which both UP and DOWN are read down. *)
Theorem up_and_down_cancel (env : Env) (w : World) :
  table_ok (vars w) ->
  index_ok (vars w) ->
  (exists w', (handleUp ;; handleDown) env w = Ok tt w' /\
              selectedPlantIndex (vars w') = selectedPlantIndex (vars w)) /\
  (exists w', (handleDown ;; handleUp) env w = Ok tt w' /\
              selectedPlantIndex (vars w') = selectedPlantIndex (vars w)) /\
  (pressed env (reads w) BUTTON_UP_PIN = true ->
   pressed env (S (reads w)) BUTTON_DOWN_PIN = true ->
   exists w', selectionScreen env w = Ok tt w' /\
              selectedPlantIndex (vars w') = selectedPlantIndex (vars w)).
Proof.
  intros Ht Hi. pose proof Ht as [_ [Hn _]]. pose proof Hi as Hi'. red in Hi'.
  split; [| split].
  - eexists. split.
    + erewrite bind_run by (apply handleUp_run; assumption).
      apply handleDown_run; [exact Ht |].
      apply next_index_range, Hn.
    + cbn [vars selectedPlantIndex set_selectedPlantIndex numPlants].
      apply prev_next_index, Hi'.
  - eexists. split.
    + erewrite bind_run by (apply handleDown_run; assumption).
      apply handleUp_run; [exact Ht |].
      apply prev_index_range, Hn.
    + cbn [vars selectedPlantIndex set_selectedPlantIndex numPlants].
      apply next_prev_index, Hi'.
  - intros Hup Hdown.
    destruct (selectionScreen_run env w Ht Hi) as [w' [Hrun [Hv _]]].
    exists w'. split; [exact Hrun |].
    rewrite Hv, selectedPlantIndex_selection_vars. cbv zeta.
    rewrite Hup, Hdown. apply prev_next_index, Hi'.
Qed.

Lemma up_and_down_cancel_witness :
  exists w',
    (handleUp ;; handleDown)
      (bench (fun _ => 0) released DEGREES_22_5 WL_CONNECTED 200)
      (garden false 0) = Ok tt w' /\
    selectedPlantIndex (vars w') = 0.
Proof.
  assert (table_ok (vars (garden false 0))) as Ht
    by (split; [reflexivity | cbn; lia]).
  assert (index_ok (vars (garden false 0))) as Hi
    by (unfold index_ok; cbn; lia).
  exact (proj1 (up_and_down_cancel
                  (bench (fun _ => 0) released DEGREES_22_5 WL_CONNECTED 200)
                  (garden false 0) Ht Hi)).
Defined.

Lemma times_handleUp_run env k :
  forall w,
    table_ok (vars w) ->
    index_ok (vars w) ->
    times k handleUp env w
    = Ok tt {| vars := set_selectedPlantIndex
                         ((selectedPlantIndex (vars w) + Z.of_nat k)
                          mod numPlants (vars w)) (vars w);
               trace := repeat (Delay 200) k ++ trace w;
               reads := reads w |}.
Proof.
  induction k as [| k IH]; intros w Ht Hi.
  - cbn [times ret repeat app Z.of_nat]. red in Hi.
    rewrite Z.add_0_r, Z.mod_small, set_selectedPlantIndex_same by exact Hi.
    destruct w; reflexivity.
  - pose proof Ht as [_ [Hn _]].
    cbn [times]. erewrite bind_run by (apply handleUp_run; assumption).
    rewrite IH by (exact Ht || apply next_index_range, Hn).
    cbn [vars trace reads selectedPlantIndex numPlants
         set_selectedPlantIndex].
    unfold next_index. rewrite Zplus_mod_idemp_l.
    replace (selectedPlantIndex (vars w) + 1 + Z.of_nat k)
      with (selectedPlantIndex (vars w) + Z.of_nat (S k)) by lia.
    replace (repeat (Delay 200) k ++ Delay 200 :: trace w)
      with (repeat (Delay 200) (S k) ++ trace w); [reflexivity |].
    change (Delay 200 :: trace w) with ([Delay 200] ++ trace w).
    rewrite app_assoc, <- repeat_cons. reflexivity.
Qed.

Lemma times_handleDown_run env k :
  forall w,
    table_ok (vars w) ->
    index_ok (vars w) ->
    times k handleDown env w
    = Ok tt {| vars := set_selectedPlantIndex
                         ((selectedPlantIndex (vars w) - Z.of_nat k)
                          mod numPlants (vars w)) (vars w);
               trace := repeat (Delay 200) k ++ trace w;
               reads := reads w |}.
Proof.
  induction k as [| k IH]; intros w Ht Hi.
  - cbn [times ret repeat app Z.of_nat]. red in Hi.
    rewrite Z.sub_0_r, Z.mod_small, set_selectedPlantIndex_same by exact Hi.
    destruct w; reflexivity.
  - pose proof Ht as [_ [Hn _]].
    cbn [times]. erewrite bind_run by (apply handleDown_run; assumption).
    rewrite IH by (exact Ht || apply prev_index_range, Hn).
    cbn [vars trace reads selectedPlantIndex numPlants
         set_selectedPlantIndex].
    unfold prev_index. rewrite Zminus_mod_idemp_l.
    replace (selectedPlantIndex (vars w) - 1 + numPlants (vars w)
             - Z.of_nat k)
      with (selectedPlantIndex (vars w) - Z.of_nat (S k)
            + 1 * numPlants (vars w)) by lia.
    rewrite Z_mod_plus_full.
    replace (repeat (Delay 200) k ++ Delay 200 :: trace w)
      with (repeat (Delay 200) (S k) ++ trace w); [reflexivity |].
    change (Delay 200 :: trace w) with ([Delay 200] ++ trace w).
    rewrite app_assoc, <- repeat_cons. reflexivity.
Qed.

(** X2.  With the index [i] in range, [k] runs of the UP handler in a
    row return with the index [(i + k) mod numPlants], and [k] runs of
    the DOWN handler with [(i - k) mod numPlants]; in particular
    [numPlants] presses of either button bring the menu back to the
    profile it started from. *)
Theorem menu_is_a_cycle (env : Env) (w : World) (k : nat) :
  table_ok (vars w) ->
  index_ok (vars w) ->
  let i := selectedPlantIndex (vars w) in
  let N := numPlants (vars w) in
  (exists w', times k handleUp env w = Ok tt w' /\
              selectedPlantIndex (vars w') = (i + Z.of_nat k) mod N /\
              (Z.of_nat k = N -> selectedPlantIndex (vars w') = i)) /\
  (exists w', times k handleDown env w = Ok tt w' /\
              selectedPlantIndex (vars w') = (i - Z.of_nat k) mod N /\
              (Z.of_nat k = N -> selectedPlantIndex (vars w') = i)).
Proof.
  intros Ht Hi i N. pose proof Hi as Hi'. red in Hi'. fold i N in Hi'.
  split.
  - eexists. split; [apply times_handleUp_run; assumption |].
    cbn [vars selectedPlantIndex set_selectedPlantIndex]. fold i N.
    split; [reflexivity |]. intros ->.
    replace (i + N) with (i + 1 * N) by lia.
    rewrite Z_mod_plus_full. apply Z.mod_small, Hi'.
  - eexists. split; [apply times_handleDown_run; assumption |].
    cbn [vars selectedPlantIndex set_selectedPlantIndex]. fold i N.
    split; [reflexivity |]. intros ->.
    replace (i - N) with (i + (-1) * N) by lia.
    rewrite Z_mod_plus_full. apply Z.mod_small, Hi'.
Qed.

Lemma menu_is_a_cycle_witness :
  exists w',
    times 2 handleUp
      (bench (fun _ => 0) released DEGREES_22_5 WL_CONNECTED 200)
      (garden false 0) = Ok tt w' /\
    selectedPlantIndex (vars w') = 0.
Proof.
  assert (table_ok (vars (garden false 0))) as Ht
    by (split; [reflexivity | cbn; lia]).
  assert (index_ok (vars (garden false 0))) as Hi
    by (unfold index_ok; cbn; lia).
  destruct (menu_is_a_cycle
              (bench (fun _ => 0) released DEGREES_22_5 WL_CONNECTED 200)
              (garden false 0) 2 Ht Hi) as [[w' [Hrun [_ Hback]]] _].
  exists w'. split; [exact Hrun |]. apply Hback. reflexivity.
Defined.

(** X3.  The ends of the menu: from the last profile the UP handler goes
    to the first one and from any other profile to the next one; from
    the first profile the DOWN handler goes to the last one and from any
    other profile to the one before. *)
Theorem menu_wraps_at_the_ends (env : Env) (w : World) :
  table_ok (vars w) ->
  index_ok (vars w) ->
  let i := selectedPlantIndex (vars w) in
  let N := numPlants (vars w) in
  (exists w', handleUp env w = Ok tt w' /\
              selectedPlantIndex (vars w')
              = if i =? N - 1 then 0 else i + 1) /\
  (exists w', handleDown env w = Ok tt w' /\
              selectedPlantIndex (vars w')
              = if i =? 0 then N - 1 else i - 1).
Proof.
  intros Ht Hi i N. pose proof Hi as Hi'. red in Hi'. fold i N in Hi'.
  split.
  - eexists. split; [apply handleUp_run; assumption |].
    cbn [vars selectedPlantIndex set_selectedPlantIndex].
    unfold next_index. fold i N.
    destruct (Z.eqb_spec i (N - 1)) as [E | E].
    + replace (i + 1) with N by lia. apply Z_mod_same_full.
    + apply Z.mod_small. lia.
  - eexists. split; [apply handleDown_run; assumption |].
    cbn [vars selectedPlantIndex set_selectedPlantIndex].
    unfold prev_index. fold i N.
    destruct (Z.eqb_spec i 0) as [E | E].
    + replace (i - 1 + N) with (N - 1) by lia. apply Z.mod_small. lia.
    + replace (i - 1 + N) with (i - 1 + 1 * N) by lia.
      rewrite Z_mod_plus_full. apply Z.mod_small. lia.
Qed.

Lemma menu_wraps_at_the_ends_witness :
  exists w',
    handleDown (bench (fun _ => 0) released DEGREES_22_5 WL_CONNECTED 200)
               (garden false 0) = Ok tt w' /\
    selectedPlantIndex (vars w') = 1.
Proof.
  assert (table_ok (vars (garden false 0))) as Ht
    by (split; [reflexivity | cbn; lia]).
  assert (index_ok (vars (garden false 0))) as Hi
    by (unfold index_ok; cbn; lia).
  exact (proj2 (menu_wraps_at_the_ends
                  (bench (fun _ => 0) released DEGREES_22_5 WL_CONNECTED 200)
                  (garden false 0) Ht Hi)).
Defined.

(** ** What a pass of the menu shows *)

Lemma selectionScreen_trace env w :
  table_ok (vars w) -> index_ok (vars w) ->
  exists w',
    selectionScreen env w = Ok tt w' /\
    trace w' = selection_events env w ++ trace w.
Proof.
  intros Ht Hi.
  pose proof Ht as [Hlen Hn]. pose proof Hi as Hi'. red in Hi'.
  destruct (plantProfiles_at_run (selectedPlantIndex (vars w)) env
              {| vars := vars w; trace := LcdSetCursor 0 0 :: trace w;
                 reads := reads w |}) as [p [Hp Hrun]]; [cbn; lia |].
  assert (name p = selected_name (vars w)) as Hname.
  { unfold selected_name, selected_profile. cbn [vars] in Hp.
    rewrite Hp. reflexivity. }
  unfold selectionScreen, selection_events, selection_vars, pressed. exec.
  rewrite Hrun. exec. rewrite Hname.
  destruct (level_eqb (digitalRead_at env (reads w) BUTTON_UP_PIN) LOW);
    [rewrite handleUp_run by by_hyp |]; exec;
    (destruct (level_eqb (digitalRead_at env (S (reads w))
                                         BUTTON_DOWN_PIN) LOW);
     [rewrite handleDown_run
        by (by_hyp || apply next_index_range, Hn) |]; exec);
    (destruct (level_eqb (digitalRead_at env (S (S (reads w)))
                                         BUTTON_SELECT_PIN) LOW);
     [rewrite handleSelect_run
        by (by_hyp || apply next_index_range, Hn
            || apply prev_index_range, Hn) |]; exec);
    eexists; (split; [reflexivity |]); reflexivity.
Qed.

Lemma selectionScreen_events env w :
  table_ok (vars w) -> index_ok (vars w) ->
  exists w',
    selectionScreen env w = Ok tt w' /\
    since w w' = selection_events env w.
Proof.
  intros Ht Hi.
  destruct (selectionScreen_trace env w Ht Hi) as [w' [Hrun Htrace]].
  exists w'. split; [exact Hrun |]. apply since_app, Htrace.
Qed.

Lemma count_selection_events f env w :
  remote f -> count f (selection_events env w) = 0%nat.
Proof.
  intros Hf. unfold selection_events.
  rewrite !count_app.
  destruct (pressed env (S (S (reads w))) BUTTON_SELECT_PIN);
    destruct (pressed env (S (reads w)) BUTTON_DOWN_PIN);
    destruct (pressed env (reads w) BUTTON_UP_PIN);
    rewrite ?count_cons_local by (assumption || reflexivity);
    reflexivity.
Qed.

(** X4.  A pass of the menu, entered with a valid index, returns.  It
    shows "Plant: " and the name of the profile selected on entry, then
    "< UP/DOWN >"; UP and DOWN each cost one 200 ms wait; SELECT clears
    the display, shows "Monitoring:" and the name of the profile that is
    selected after the UP and DOWN handling of this same pass, and waits
    2000 ms.  The pass writes nothing to the serial port or to the cloud
    client, and waits at most 2400 ms in all.  So with UP and SELECT
    down in one pass, monitoring starts on the profile after the one the
    menu line has shown. *)
Theorem menu_pass_display (env : Env) (w : World) :
  table_ok (vars w) ->
  index_ok (vars w) ->
  exists w',
    selectionScreen env w = Ok tt w' /\
    since w w' = selection_events env w /\
    count is_log (since w w') = 0%nat /\
    count is_cloud (since w w') = 0%nat /\
    0 <= delay_total (since w w') <= 2400 /\
    (pressed env (reads w) BUTTON_UP_PIN = true ->
     pressed env (S (reads w)) BUTTON_DOWN_PIN = false ->
     pressed env (S (S (reads w))) BUTTON_SELECT_PIN = true ->
     In (LcdPrint ("Plant: " +++ selected_name (vars w) +++ " "))
        (since w w') /\
     selectedPlantIndex (vars w')
     = next_index (selectedPlantIndex (vars w)) (numPlants (vars w)) /\
     mode (vars w') = (if calibrationMode (vars w)
                       then Calibration else Monitoring)).
Proof.
  intros Ht Hi.
  destruct (selectionScreen_run env w Ht Hi) as [w' [Hrun [Hv _]]].
  destruct (selectionScreen_events env w Ht Hi) as [w2 [Hrun2 Hsince]].
  rewrite Hrun in Hrun2. injection Hrun2 as <-.
  exists w'. split; [exact Hrun |]. rewrite Hsince.
  split; [reflexivity |].
  split; [apply count_selection_events; auto with sketch |].
  split; [apply count_selection_events; auto with sketch |].
  split.
  { unfold selection_events.
    destruct (pressed env (S (S (reads w))) BUTTON_SELECT_PIN);
      destruct (pressed env (S (reads w)) BUTTON_DOWN_PIN);
      destruct (pressed env (reads w) BUTTON_UP_PIN);
      cbn; lia. }
  intros Hup Hdown Hsel.
  split.
  { unfold selection_events. rewrite Hup, Hdown, Hsel. cbn. tauto. }
  rewrite Hv. split.
  - rewrite selectedPlantIndex_selection_vars. cbv zeta.
    rewrite Hup, Hdown. reflexivity.
  - unfold selection_vars. rewrite Hsel. unfold mode. cbn.
    destruct (calibrationMode (vars w)); reflexivity.
Qed.

Lemma menu_pass_display_witness :
  exists w',
    selectionScreen
      (bench (fun _ => 0) (held BUTTON_SELECT_PIN) DEGREES_22_5
             WL_CONNECTED 200)
      (garden false 0) = Ok tt w' /\
    since (garden false 0) w'
    = [Delay 2000; LcdPrint "Basil"; LcdSetCursor 0 1;
       LcdPrint "Monitoring:"; LcdClear; LcdPrint "< UP/DOWN >";
       LcdSetCursor 0 1; LcdPrint ("Plant: " +++ "Basil" +++ " ");
       LcdSetCursor 0 0].
Proof.
  assert (table_ok (vars (garden false 0))) as Ht
    by (split; [reflexivity | cbn; lia]).
  assert (index_ok (vars (garden false 0))) as Hi
    by (unfold index_ok; cbn; lia).
  destruct (menu_pass_display
              (bench (fun _ => 0) (held BUTTON_SELECT_PIN) DEGREES_22_5
                     WL_CONNECTED 200)
              (garden false 0) Ht Hi) as [w' [Hrun [Hsince _]]].
  exists w'. split; [exact Hrun |]. rewrite Hsince. reflexivity.
Defined.

(** ** The classifier on thresholds in the wrong order *)

(** X5.  The sketch does not check that the dry threshold lies above the
    wet one.  The dry test comes first: a reading above the dry
    threshold is always "Water the soil".  With the dry threshold below
    the wet one no reading at all is "Ideal soil", and the readings
    between the two thresholds are "Water the soil"; with both
    thresholds equal only the threshold itself is "Ideal soil". *)
Theorem soilStatus_on_swapped_thresholds (v : Z) (p : PlantProfile) :
  (v > drySoilMoisture p -> soilStatus v p = "Water the soil") /\
  (drySoilMoisture p < wetSoilMoisture p ->
   soilStatus v p <> "Ideal soil" /\
   (drySoilMoisture p < v < wetSoilMoisture p ->
    soilStatus v p = "Water the soil") /\
   (v <= drySoilMoisture p -> soilStatus v p = "Soil too wet")) /\
  (drySoilMoisture p = wetSoilMoisture p ->
   (soilStatus v p = "Ideal soil" <-> v = drySoilMoisture p)).
Proof.
  unfold soilStatus.
  destruct (Z.gtb_spec v (drySoilMoisture p));
    destruct (Z.ltb_spec v (wetSoilMoisture p));
    repeat split; intros; try reflexivity; try discriminate; try lia.
Qed.

Lemma soilStatus_on_swapped_thresholds_witness :
  soilStatus 1800 {| name := "Basil"; drySoilMoisture := 1400;
                     wetSoilMoisture := 2100; channelID := 1;
                     apiKey := "KEY" |} = "Water the soil".
Proof.
  apply (soilStatus_on_swapped_thresholds 1800
           {| name := "Basil"; drySoilMoisture := 1400;
              wetSoilMoisture := 2100; channelID := 1; apiKey := "KEY" |}).
  - cbn. lia.
  - cbn. lia.
Defined.

(** ** Power-on *)

Lemma setup_trace env w :
  exists w',
    setup env w = Ok tt w' /\
    vars w' = set_calibrationMode (pressed env (reads w) BUTTON_SELECT_PIN)
                                  (vars w) /\
    trace w' = setup_events env w ++ trace w.
Proof.
  unfold setup, setup_events, pressed. exec.
  destruct (level_eqb (digitalRead_at env (reads w) BUTTON_SELECT_PIN) LOW).
  - eexists. split; [reflexivity |]. split; reflexivity.
  - exec. rewrite connectWiFi_run. exec.
    eexists. split; [reflexivity |]. cbn [vars trace].
    split; [apply vars_connectWiFi_world |].
    rewrite trace_connectWiFi_world. cbn [trace].
    unfold PROMPT_EVENTS, STARTUP_EVENTS, clock_read, wifi_events.
    cbn [reads app]. rewrite <- !app_assoc. reflexivity.
Qed.

Lemma delay_total_connectWiFi_events j r :
  delay_total (connectWiFi_events j r) = 1000 + 500 * Z.of_nat j.
Proof.
  unfold connectWiFi_events. cbn [delay_total].
  rewrite delay_total_app, delay_total_waiting. cbn [delay_total]. lia.
Qed.

Lemma delay_total_wifi_events env w :
  0 <= delay_total (wifi_events env w) <= 11000.
Proof.
  unfold wifi_events.
  destruct (is_connected (status_at env (reads w))); [cbn; lia |].
  rewrite delay_total_connectWiFi_events.
  pose proof (failed_polls_le env (S (reads w)) 20). lia.
Qed.

(** X6.  [setup] always returns and changes no global but
    [calibrationMode], which it sets to whether SELECT is read down
    after the one-second start message.  With SELECT down it shows
    "Calibration Mode" and touches neither the DHT sensor nor the radio
    nor the cloud client, having waited 1000 ms in all.  With SELECT up
    it starts the DHT sensor, runs [connectWiFi] and starts the cloud
    client, each once and in this order, shows the prompt, and has
    waited between 3000 and 14000 ms in all; a device that had no plant
    chosen is then in the menu. *)
Theorem setup_chooses_the_mode (env : Env) (w : World) :
  exists w',
    setup env w = Ok tt w' /\
    vars w' = set_calibrationMode (pressed env (reads w) BUTTON_SELECT_PIN)
                                  (vars w) /\
    since w w' = setup_events env w /\
    (pressed env (reads w) BUTTON_SELECT_PIN = true ->
     mode (vars w') = Calibration /\
     In (LcdPrint "Calibration Mode") (since w w') /\
     count is_dht_begin (since w w') = 0%nat /\
     count is_radio (since w w') = 0%nat /\
     count is_cloud (since w w') = 0%nat /\
     delay_total (since w w') = 1000) /\
    (pressed env (reads w) BUTTON_SELECT_PIN = false ->
     (plantWasChosen (vars w) = false -> mode (vars w') = Selecting) /\
     since w w'
     = PROMPT_EVENTS ++ [ThingSpeakBegin] ++ wifi_events env (clock_read w)
       ++ [DhtBegin] ++ STARTUP_EVENTS /\
     count is_dht_begin (since w w') = 1%nat /\
     count is_cloud (since w w') = 1%nat /\
     3000 <= delay_total (since w w') <= 14000).
Proof.
  destruct (setup_trace env w) as [w' [Hrun [Hv Htrace]]].
  exists w'. split; [exact Hrun |]. split; [exact Hv |].
  rewrite (since_app _ _ _ Htrace). split; [reflexivity |].
  rewrite Hv. unfold setup_events.
  split; intros Hsel; rewrite Hsel.
  - split; [reflexivity |].
    split; [cbn; tauto |].
    repeat split.
  - split.
    { intros Hch. unfold mode. cbn. rewrite Hch. reflexivity. }
    split; [rewrite <- !app_assoc; reflexivity |].
    pose proof (delay_total_wifi_events env (clock_read w)) as Hd.
    rewrite !count_app, !delay_total_app.
    assert (count is_dht_begin (wifi_events env (clock_read w)) = 0%nat)
      as Hdht by (apply count_wifi_events; intros e; destruct e;
                  cbn; congruence).
    rewrite Hdht, (count_wifi_events is_cloud) by auto with sketch.
    split; [reflexivity |]. split; [reflexivity |].
    change (delay_total PROMPT_EVENTS) with 2000.
    change (delay_total [ThingSpeakBegin]) with 0.
    change (delay_total [DhtBegin]) with 0.
    change (delay_total STARTUP_EVENTS) with 1000.
    lia.
Qed.

(** X7.  When the radio is found connected at power-on, [connectWiFi]
    returns at once, and the prompt "Select the" is printed with no
    clear and no cursor move since "Starting...": the only calls in
    between are the wait, the start of the DHT sensor and the start of
    the cloud client.  The whole of [setup] then waits exactly 3000 ms
    and never addresses the radio. *)
Theorem setup_prompt_follows_start_message (env : Env) (w : World) :
  pressed env (reads w) BUTTON_SELECT_PIN = false ->
  is_connected (status_at env (S (reads w))) = true ->
  exists w',
    setup env w = Ok tt w' /\
    since w w'
    = [Delay 2000; LcdPrint "plant:"; LcdSetCursor 0 1;
       LcdPrint "Select the"; ThingSpeakBegin; DhtBegin; Delay 1000;
       LcdPrint "Starting..."; LcdSetCursor 0 0;
       PinModeInputPullup BUTTON_SELECT_PIN;
       PinModeInputPullup BUTTON_DOWN_PIN;
       PinModeInputPullup BUTTON_UP_PIN; LcdBacklight; LcdInit;
       SerialBegin 115200] /\
    count is_radio (since w w') = 0%nat /\
    delay_total (since w w') = 3000.
Proof.
  intros Hsel Hconn.
  destruct (setup_trace env w) as [w' [Hrun [_ Htrace]]].
  exists w'. split; [exact Hrun |].
  rewrite (since_app _ _ _ Htrace).
  unfold setup_events, wifi_events. rewrite Hsel. cbn [clock_read reads].
  rewrite Hconn. repeat split.
Qed.

Lemma setup_prompt_follows_start_message_witness :
  exists w',
    setup (bench (fun _ => 0) released DEGREES_22_5 WL_CONNECTED 200)
          (boot [basil; fern]) = Ok tt w' /\
    delay_total (since (boot [basil; fern]) w') = 3000.
Proof.
  destruct (setup_prompt_follows_start_message
              (bench (fun _ => 0) released DEGREES_22_5 WL_CONNECTED 200)
              (boot [basil; fern]) eq_refl eq_refl)
    as [w' [Hrun [_ [_ Hdelay]]]].
  exists w'. split; [exact Hrun | exact Hdelay].
Defined.

(** ** Calibration mode *)

Lemma loop_calibration_run env w :
  mode (vars w) = Calibration ->
  loop env w
  = Ok tt {| vars := vars w;
             trace := calibration_pass_events
                        (Int32.to_signed
                           (analogRead_at env (reads w) SOIL_SENSOR_PIN))
                      ++ trace w;
             reads := S (reads w) |}.
Proof.
  intros Hm. rewrite loop_calibration by exact Hm. reflexivity.
Qed.

Lemma loops_calibration_run env n :
  forall w,
    mode (vars w) = Calibration ->
    loops n env w
    = Ok tt {| vars := vars w;
               trace := calibration_events env (reads w) n ++ trace w;
               reads := (n + reads w)%nat |}.
Proof.
  induction n as [| n IH]; intros w Hm.
  - destruct w; reflexivity.
  - cbn [loops]. erewrite bind_run by (apply loop_calibration_run, Hm).
    rewrite IH by exact Hm. cbn [vars trace reads calibration_events].
    rewrite <- app_assoc. f_equal. f_equal. lia.
Qed.

Lemma count_calibration_events_log env k n :
  count is_log (calibration_events env k n) = n.
Proof.
  revert k. induction n as [| n IH]; intros k; [reflexivity |].
  cbn [calibration_events]. rewrite count_app, IH.
  change (count is_log (calibration_pass_events _)) with 1%nat. lia.
Qed.

Lemma count_none f tr :
  (forall e, In e tr -> f e = false) -> count f tr = 0%nat.
Proof.
  induction tr as [| e tr IH]; intros H; [reflexivity |].
  unfold count. cbn [filter]. rewrite (H e) by (left; reflexivity).
  apply IH. intros e' He'. apply H. right. exact He'.
Qed.

Lemma count_calibration_events_quiet f env k n :
  (forall v e, In e (calibration_pass_events v) -> f e = false) ->
  count f (calibration_events env k n) = 0%nat.
Proof.
  intros Hf. revert k. induction n as [| n IH]; intros k;
    [reflexivity |].
  cbn [calibration_events]. rewrite count_app, IH.
  apply count_none, Hf.
Qed.

Lemma delay_total_calibration_events env k n :
  delay_total (calibration_events env k n) = 250 * Z.of_nat n.
Proof.
  revert k. induction n as [| n IH]; intros k; [reflexivity |].
  cbn [calibration_events]. rewrite delay_total_app, IH.
  change (delay_total (calibration_pass_events _)) with 250. lia.
Qed.

(** X8.  Calibration mode is never left.  Entered with [calibrationMode]
    set, whatever [plantWasChosen] says, any number [n] of passes of
    [loop] returns with every global unchanged, having made exactly [n]
    reads of the environment (the soil probe, once a pass; no button is
    polled), logged exactly [n] lines, waited [250 * n] ms and made no
    call to the radio or to the cloud client.  Each pass shows and logs
    the same raw reading. *)
Theorem calibration_mode_is_final (env : Env) (w : World) (n : nat) :
  calibrationMode (vars w) = true ->
  exists w',
    loops n env w = Ok tt w' /\
    vars w' = vars w /\
    mode (vars w') = Calibration /\
    reads w' = (n + reads w)%nat /\
    since w w' = calibration_events env (reads w) n /\
    count is_log (since w w') = n /\
    count is_cloud (since w w') = 0%nat /\
    count is_radio (since w w') = 0%nat /\
    delay_total (since w w') = 250 * Z.of_nat n /\
    (forall v,
        In (LcdPrint (OfInt v)) (calibration_pass_events v) /\
        In (SerialPrintln ("Calibration Value: " +++ OfInt v))
           (calibration_pass_events v)).
Proof.
  intros Hcal.
  assert (mode (vars w) = Calibration) as Hm
    by (unfold mode; rewrite Hcal; reflexivity).
  eexists. split; [apply loops_calibration_run, Hm |].
  cbn [vars reads].
  split; [reflexivity |]. split; [exact Hm |]. split; [reflexivity |].
  rewrite (since_app (calibration_events env (reads w) n)) by reflexivity.
  split; [reflexivity |].
  split; [apply count_calibration_events_log |].
  split; [apply count_calibration_events_quiet; intros v e Hin;
          cbn in Hin; intuition subst; reflexivity |].
  split; [apply count_calibration_events_quiet; intros v e Hin;
          cbn in Hin; intuition subst; reflexivity |].
  split; [apply delay_total_calibration_events |].
  intros v. unfold calibration_pass_events. cbn. tauto.
Qed.

Lemma calibration_mode_is_final_witness :
  exists w',
    loops 4 (bench (fun _ => 0) (held BUTTON_SELECT_PIN) DEGREES_22_5
                   WL_CONNECTED 200)
          {| vars := set_calibrationMode true (vars (garden true 0));
             trace := []; reads := 0 |} = Ok tt w' /\
    mode (vars w') = Calibration /\
    count is_log (trace w') = 4%nat.
Proof.
  destruct (calibration_mode_is_final
              (bench (fun _ => 0) (held BUTTON_SELECT_PIN) DEGREES_22_5
                     WL_CONNECTED 200)
              {| vars := set_calibrationMode true (vars (garden true 0));
                 trace := []; reads := 0 |} 4 eq_refl)
    as [w' [Hrun [_ [Hm [_ [Hsince [Hlog _]]]]]]].
  exists w'. split; [exact Hrun |]. split; [exact Hm |].
  rewrite <- Hlog. unfold since. cbn [trace List.length].
  rewrite Nat.sub_0_r, firstn_all. reflexivity.
Defined.

(** ** A cycle with valid readings *)

Lemma delay_total_cycle_events env w p :
  delay_total (cycle_events env w p) = 0.
Proof. unfold cycle_events. destruct (dht_failed env w); reflexivity. Qed.

Lemma delay_total_reconnect_events env w :
  0 <= delay_total (reconnect_events env w) <= 11000.
Proof.
  unfold reconnect_events.
  destruct (is_connected (status_at env (S (reads w)))); [cbn; lia |].
  apply delay_total_wifi_events.
Qed.

(** X9.  A cycle with valid readings returns.  It makes exactly one HTTP
    write, addressed to the channel and with the key of the profile at
    [selectedPlantIndex]; field 2 carries the raw soil reading, fields 1
    and 3 the temperature and the humidity as read; the status text sent
    to the cloud is the one shown on the second display row, the
    classification of that same soil reading against that same profile;
    and it logs one line, the success line exactly when the code is
    200. *)
Theorem valid_cycle_posts_selected_profile
    (env : Env) (w : World) (p : PlantProfile) :
  selected_profile (vars w) = Some p ->
  0 <= selectedPlantIndex (vars w) ->
  dht_failed env w = false ->
  let soil := soil_reading env w in
  exists w',
    monitoringAndSendingScreen env w = Ok tt w' /\
    since w w'
    = SerialPrintln (post_log p (http_code env w))
      :: report_events p soil (temperature_reading env w)
                       (humidity_reading env w)
      ++ reconnect_events env w /\
    count is_post (since w w') = 1%nat /\
    count is_log (since w w') = 1%nat /\
    In (ThingSpeakWriteFields (channelID p) (apiKey p)) (since w w') /\
    In (ThingSpeakSetField 2 (NInt soil)) (since w w') /\
    In (ThingSpeakSetField 1 (NFloat (temperature_reading env w)))
       (since w w') /\
    In (ThingSpeakSetField 3 (NFloat (humidity_reading env w)))
       (since w w') /\
    In (LcdPrint (soilStatus soil p)) (since w w') /\
    In (ThingSpeakSetStatus
          ("Plant: " +++ name p +++ " - " +++ soilStatus soil p))
       (since w w') /\
    (In (SerialPrintln ("Data sent to channel: " +++ name p)) (since w w')
     <-> http_code env w = 200).
Proof.
  intros Hp Hi Hok soil.
  exists (monitoring_world env w p).
  split; [apply monitoringAndSendingScreen_run; assumption |].
  rewrite since_monitoring_world.
  unfold cycle_events. rewrite Hok. fold soil.
  split; [reflexivity |].
  change (SerialPrintln (post_log p (http_code env w))
          :: report_events p soil (temperature_reading env w)
               (humidity_reading env w))
    with ([SerialPrintln (post_log p (http_code env w))]
          ++ report_events p soil (temperature_reading env w)
               (humidity_reading env w)).
  rewrite <- !app_assoc.
  rewrite !count_app, !count_reconnect_events by auto with sketch.
  split; [reflexivity |]. split; [reflexivity |].
  unfold report_events.
  repeat (split; [cbn; tauto |]).
  split.
  - intros Hin. apply in_app_or in Hin. destruct Hin as [Hin | Hin].
    + cbn in Hin. destruct Hin as [Hin | []].
      unfold post_log in Hin.
      destruct (Z.eqb_spec (http_code env w) 200); [assumption |].
      discriminate.
    + apply in_app_or in Hin. destruct Hin as [Hin | Hin].
      * cbn in Hin. intuition discriminate.
      * exfalso.
        assert (count is_log (reconnect_events env w) <> 0%nat) as Hne.
        { apply in_split in Hin. destruct Hin as [l1 [l2 ->]].
          rewrite count_app. unfold count at 2. cbn. lia. }
        apply Hne, count_reconnect_events. auto with sketch.
  - intros Hcode. apply in_or_app. left. unfold post_log.
    rewrite Hcode. cbn. tauto.
Qed.

Lemma valid_cycle_posts_selected_profile_witness :
  exists w',
    monitoringAndSendingScreen
      (bench (fun _ => 40000) released DEGREES_22_5 WL_CONNECTED 200)
      (garden true 0) = Ok tt w' /\
    In (ThingSpeakWriteFields 1234567 "BASILWRITEKEY")
       (since (garden true 0) w') /\
    In (LcdPrint "Ideal soil") (since (garden true 0) w').
Proof.
  assert (0 <= selectedPlantIndex (vars (garden true 0))) as Hi
    by (cbn; lia).
  destruct (valid_cycle_posts_selected_profile
              (bench (fun _ => 40000) released DEGREES_22_5 WL_CONNECTED 200)
              (garden true 0) basil eq_refl Hi eq_refl)
    as [w' [Hrun [_ [_ [_ [Hpost [_ [_ [_ [Hlcd _]]]]]]]]]].
  exists w'. split; [exact Hrun |]. split; [exact Hpost | exact Hlcd].
Defined.

(** ** A cycle without the radio *)

Lemma count_is_radio_waiting k : count is_radio (waiting k) = 0%nat.
Proof.
  induction k as [| k IH]; [reflexivity |]. cbn [waiting].
  unfold count in *. cbn [filter is_radio]. exact IH.
Qed.

Lemma count_is_radio_connectWiFi_events j r :
  count is_radio (connectWiFi_events j r) = 1%nat.
Proof.
  unfold connectWiFi_events.
  change (LcdClear :: Delay 1000 :: LcdPrint r :: LcdSetCursor 0 0
          :: LcdClear :: waiting j
          ++ [LcdPrint "Connecting WiFi"; LcdSetCursor 0 0; LcdClear;
              WiFiBegin ssid password])
    with ([LcdClear; Delay 1000; LcdPrint r; LcdSetCursor 0 0; LcdClear]
          ++ waiting j
          ++ [LcdPrint "Connecting WiFi"; LcdSetCursor 0 0; LcdClear;
              WiFiBegin ssid password]).
  rewrite !count_app, count_is_radio_waiting. reflexivity.
Qed.

(** X10.  A cycle never waits for more than 11000 ms, and waits only
    inside [connectWiFi]: not at all when the radio is found connected.
    A failed connection does not end the cycle: when no status poll ever
    answers connected, the cycle starts one association, waits the full
    11000 ms, shows "Connection failed", and then reads the sensors and
    makes its HTTP write all the same (one write if the readings are
    valid). *)
Theorem cycle_goes_on_without_radio
    (env : Env) (w : World) (p : PlantProfile) :
  selected_profile (vars w) = Some p ->
  0 <= selectedPlantIndex (vars w) ->
  exists w',
    monitoringAndSendingScreen env w = Ok tt w' /\
    0 <= delay_total (since w w') <= 11000 /\
    (is_connected (status_at env (S (reads w))) = true ->
     delay_total (since w w') = 0 /\ count is_radio (since w w') = 0%nat) /\
    ((forall k, is_connected (status_at env k) = false) ->
     delay_total (since w w') = 11000 /\
     count is_radio (since w w') = 1%nat /\
     In (LcdPrint "Connection failed") (since w w') /\
     count is_log (since w w') = 1%nat /\
     count is_post (since w w')
     = if dht_failed env w then 0%nat else 1%nat).
Proof.
  intros Hp Hi.
  exists (monitoring_world env w p).
  split; [apply monitoringAndSendingScreen_run; assumption |].
  rewrite since_monitoring_world.
  rewrite !count_app, delay_total_app, delay_total_cycle_events.
  pose proof (delay_total_reconnect_events env w) as Hbound.
  split; [lia |].
  split.
  - intros Hconn. unfold reconnect_events. rewrite Hconn.
    split; [reflexivity |].
    unfold cycle_events. destruct (dht_failed env w); reflexivity.
  - intros Hall.
    assert (reconnect_events env w
            = connectWiFi_events 20 (Lit "Connection failed")) as Hre.
    { unfold reconnect_events, wifi_events.
      cbn [monitoring_start reads]. rewrite !Hall.
      rewrite failed_polls_all by (intros; apply Hall).
      unfold connectWiFi_report. rewrite Hall. reflexivity. }
    rewrite Hre, delay_total_connectWiFi_events,
      count_is_radio_connectWiFi_events,
      !count_connectWiFi_events by auto with sketch.
    rewrite count_is_log_cycle_events, count_is_post_cycle_events.
    split; [reflexivity |].
    split.
    { unfold cycle_events. destruct (dht_failed env w); reflexivity. }
    split.
    { apply in_or_app. right. unfold connectWiFi_events. cbn. tauto. }
    split; [reflexivity |].
    destruct (dht_failed env w); reflexivity.
Qed.

Lemma cycle_goes_on_without_radio_witness :
  exists w',
    monitoringAndSendingScreen
      (bench (fun _ => 40000) released DEGREES_22_5 WL_DISCONNECTED 200)
      (garden true 0) = Ok tt w' /\
    delay_total (since (garden true 0) w') = 11000 /\
    count is_post (since (garden true 0) w') = 1%nat.
Proof.
  assert (0 <= selectedPlantIndex (vars (garden true 0))) as Hi
    by (cbn; lia).
  destruct (cycle_goes_on_without_radio
              (bench (fun _ => 40000) released DEGREES_22_5
                     WL_DISCONNECTED 200)
              (garden true 0) basil eq_refl Hi)
    as [w' [Hrun [_ [_ Hdown]]]].
  destruct (Hdown (fun _ => eq_refl)) as [Hdelay [_ [_ [_ Hpost]]]].
  exists w'. split; [exact Hrun |]. split; [exact Hdelay | exact Hpost].
Defined.

(** ** An index outside the table *)




(** ** The posting interval across the wrap of the clock *)

Lemma elapsed_is_true_difference T d :
  0 <= d < Int32.modulus ->
  elapsed (Int32.to_unsigned (T + d))
          (Int32.to_signed (Int32.to_unsigned T)) = d.
Proof.
  intros Hd. unfold elapsed.
  rewrite Int32Facts.to_unsigned_to_signed.
  unfold Int32.to_unsigned in *.
  rewrite Z.mod_mod by (unfold Int32.modulus; lia).
  rewrite <- Zminus_mod.
  replace (T + d - T) with d by lia.
  apply Z.mod_small, Hd.
Qed.

(** X12.  The gate of [loop] measures true elapsed time across the
    wrap-around of the 32-bit clock.  If the last cycle stored the clock
    reading of time [T] (whatever [T], also above 2^31, where the stored
    [long] is negative) and the pass reads the clock at time [T + d]
    with [0 <= d < 2^32], then the difference that [loop] computes is
    [d], and the pass runs a cycle exactly when [d > 30000]. *)
Theorem posting_gate_survives_clock_wrap
    (env : Env) (w : World) (p : PlantProfile) (T d : Z) :
  mode (vars w) = Monitoring ->
  selected_profile (vars w) = Some p ->
  0 <= selectedPlantIndex (vars w) ->
  lastConnectionTime (vars w) = Int32.to_signed (Int32.to_unsigned T) ->
  tick_clock env w = Int32.to_unsigned (T + d) ->
  0 <= d < Int32.modulus ->
  elapsed (tick_clock env w) (lastConnectionTime (vars w)) = d /\
  exists w',
    loop env w = Ok tt w' /\
    (count is_log (since w w') = 1%nat <-> 30000 < d) /\
    (d <= 30000 ->
     since w w' = pass_return_events env w p /\
     lastConnectionTime (vars w') = lastConnectionTime (vars w)).
Proof.
  intros Hm Hp Hi Hlast Hnow Hd.
  assert (elapsed (tick_clock env w) (lastConnectionTime (vars w)) = d)
    as Hel by (rewrite Hlast, Hnow; apply elapsed_is_true_difference, Hd).
  split; [exact Hel |].
  exists (monitoring_pass_world env w p).
  split; [apply loop_monitoring_run; assumption |].
  rewrite count_is_log_pass, since_monitoring_pass,
    lastConnectionTime_monitoring_pass.
  unfold pass_cycle_events.
  pose proof (postingDue_spec (tick_clock env w)
                (lastConnectionTime (vars w))) as Hdue.
  pose proof (postingDue_false (tick_clock env w)
                (lastConnectionTime (vars w))) as Hnot.
  fold (cycle_due env w) in Hdue, Hnot. rewrite Hel in Hdue, Hnot.
  destruct (cycle_due env w).
  - pose proof (proj1 Hdue eq_refl). split; [tauto | lia].
  - pose proof (proj1 Hnot eq_refl).
    split; [split; [discriminate | lia] |].
    intros _. split; [apply app_nil_r | reflexivity].
Qed.

Lemma posting_gate_survives_clock_wrap_witness :
  exists w',
    loop (bench (fun _ => 30000) released DEGREES_22_5 WL_CONNECTED 200)
         (garden true (-1000)) = Ok tt w' /\
    count is_log (since (garden true (-1000)) w') = 1%nat.
Proof.
  assert (0 <= selectedPlantIndex (vars (garden true (-1000)))) as Hi
    by (cbn; lia).
  assert (0 <= 31000 < Int32.modulus) as Hd by (unfold Int32.modulus; lia).
  destruct (posting_gate_survives_clock_wrap
              (bench (fun _ => 30000) released DEGREES_22_5 WL_CONNECTED 200)
              (garden true (-1000)) basil 4294966296 31000
              eq_refl eq_refl Hi eq_refl eq_refl Hd)
    as [_ [w' [Hrun [Hlog _]]]].
  exists w'. split; [exact Hrun |]. apply Hlog. lia.
Defined.

(** ** What a pass of [loop] may change *)

Lemma vars_monitoring_pass_world env w p :
  vars (monitoring_pass_world env w p)
  = let g := if cycle_due env w
             then set_lastConnectionTime
                    (Int32.to_signed (tick_clock env (clock_read w))) (vars w)
             else vars w in
    if pressed env (reads (before_select env w p)) BUTTON_SELECT_PIN
    then set_plantWasChosen false g else g.
Proof.
  unfold monitoring_pass_world, before_select. cbv zeta.
  destruct (cycle_due env w);
    match goal with
    | |- context [pressed ?e ?k ?pin] => destruct (pressed e k pin)
    end; reflexivity.
Qed.

(** X13.  What one pass of [loop] may write, mode by mode.  No pass
    changes [calibrationMode].  [selectedPlantIndex] changes only in the
    menu.  In the menu the timer and [plantWasChosen] change only when
    SELECT is read down.  While monitoring, the timer changes only when
    a cycle is due, and [plantWasChosen] only when SELECT is read down
    at the end of the pass. *)
Theorem loop_pass_frame (env : Env) (w : World) :
  Inv (vars w) ->
  exists w',
    loop env w = Ok tt w' /\
    calibrationMode (vars w') = calibrationMode (vars w) /\
    (mode (vars w) = Calibration -> vars w' = vars w) /\
    (mode (vars w) <> Selecting ->
     selectedPlantIndex (vars w') = selectedPlantIndex (vars w)) /\
    (mode (vars w) = Selecting ->
     pressed env (S (S (reads w))) BUTTON_SELECT_PIN = false ->
     lastConnectionTime (vars w') = lastConnectionTime (vars w) /\
     plantWasChosen (vars w') = plantWasChosen (vars w)) /\
    (mode (vars w) = Monitoring ->
     (cycle_due env w = false ->
      lastConnectionTime (vars w') = lastConnectionTime (vars w)) /\
     (pressed env (pred (reads w')) BUTTON_SELECT_PIN = false ->
      plantWasChosen (vars w') = plantWasChosen (vars w))).
Proof.
  intros HI. pose proof HI as [Ht Hi].
  destruct (mode (vars w)) eqn:Hm.
  - destruct (runCalibrationMode_run env w) as [w' [Hrun Hv]].
    exists w'. rewrite loop_calibration by exact Hm.
    split; [exact Hrun |]. rewrite Hv.
    repeat split; intros; (reflexivity || discriminate).
  - destruct (selectionScreen_run env w Ht Hi) as [w' [Hrun [Hv _]]].
    exists w'. rewrite loop_selecting by exact Hm.
    split; [exact Hrun |]. rewrite Hv.
    split.
    { unfold selection_vars.
      destruct (pressed env (S (S (reads w))) BUTTON_SELECT_PIN);
        reflexivity. }
    split; [discriminate |]. split; [intros H; contradiction H; reflexivity |].
    split; [| discriminate].
    intros _ Hsel. unfold selection_vars. rewrite Hsel.
    split; reflexivity.
  - destruct (selected_profile_some _ HI) as [p Hp].
    exists (monitoring_pass_world env w p).
    split; [apply loop_monitoring_run; (assumption || apply Hi) |].
    rewrite vars_monitoring_pass_world. cbv zeta.
    assert (reads (monitoring_pass_world env w p)
            = S (reads (before_select env w p))) as Hreads.
    { unfold monitoring_pass_world.
      destruct (pressed env (reads (before_select env w p))
                        BUTTON_SELECT_PIN); reflexivity. }
    rewrite Hreads. cbn [pred].
    destruct (pressed env (reads (before_select env w p)) BUTTON_SELECT_PIN);
      destruct (cycle_due env w); cbn;
      repeat split; intros; (reflexivity || discriminate).
Qed.

Lemma loop_pass_frame_witness :
  exists w',
    loop (bench (fun _ => 40000) (held BUTTON_UP_PIN) DEGREES_22_5
                WL_CONNECTED 200)
         (garden true 0) = Ok tt w' /\
    selectedPlantIndex (vars w') = 0.
Proof.
  assert (Inv (vars (garden true 0))) as HI.
  { split; [split; [reflexivity | cbn; lia] | unfold index_ok; cbn; lia]. }
  destruct (loop_pass_frame
              (bench (fun _ => 40000) (held BUTTON_UP_PIN) DEGREES_22_5
                     WL_CONNECTED 200)
              (garden true 0) HI) as [w' [Hrun [_ [_ [Hidx _]]]]].
  exists w'. split; [exact Hrun |]. apply Hidx. discriminate.
Defined.

(** ** Before a plant is chosen *)

Lemma count_cons_false f e tr :
  f e = false -> count f (e :: tr) = count f tr.
Proof. intros He. unfold count. cbn [filter]. rewrite He. reflexivity. Qed.

Lemma count_setup_events f env w :
  remote f ->
  f DhtBegin = false -> f ThingSpeakBegin = false ->
  (forall n, f (SerialBegin n) = false) ->
  (forall n, f (PinModeInputPullup n) = false) ->
  count f (setup_events env w) = 0%nat.
Proof.
  intros Hf Hdht Hts Hser Hpin. unfold setup_events.
  rewrite count_app.
  assert (count f STARTUP_EVENTS = 0%nat) as Hstart.
  { apply count_none. intros e Hin. cbn in Hin.
    intuition subst; (apply Hpin || apply Hser || (apply Hf; reflexivity)). }
  rewrite Hstart.
  destruct (pressed env (reads w) BUTTON_SELECT_PIN).
  - rewrite !count_cons_local by (assumption || reflexivity). reflexivity.
  - rewrite !count_app, count_wifi_events by exact Hf.
    unfold PROMPT_EVENTS.
    rewrite !count_cons_local by (assumption || reflexivity).
    rewrite !count_cons_false by assumption. reflexivity.
Qed.

Lemma loop_idle_in_menu env w :
  (forall k, digitalRead_at env k BUTTON_SELECT_PIN = HIGH) ->
  idle_in_menu w ->
  exists w', loop env w = Ok tt w' /\ idle_in_menu w'.
Proof.
  intros Hup [HI [Hm [Hlast [Hpost Hlog]]]]. pose proof HI as [Ht Hi].
  destruct (selectionScreen_run env w Ht Hi) as [w' [Hrun [Hv _]]].
  destruct (selectionScreen_trace env w Ht Hi) as [w2 [Hrun2 Htrace]].
  rewrite Hrun in Hrun2. injection Hrun2 as <-.
  exists w'. rewrite loop_selecting by exact Hm.
  split; [exact Hrun |].
  assert (pressed env (S (S (reads w))) BUTTON_SELECT_PIN = false) as Hsel
    by (unfold pressed; rewrite Hup; reflexivity).
  split; [rewrite Hv; apply Inv_selection_vars, HI |].
  split; [rewrite Hv, mode_selection_vars, Hsel by exact Hm; reflexivity |].
  split.
  { rewrite Hv. unfold selection_vars. rewrite Hsel. exact Hlast. }
  rewrite Htrace, !count_app, !count_selection_events by auto with sketch.
  split; assumption.
Qed.

Lemma loops_idle_in_menu env n :
  (forall k, digitalRead_at env k BUTTON_SELECT_PIN = HIGH) ->
  forall w,
    idle_in_menu w ->
    exists w', loops n env w = Ok tt w' /\ idle_in_menu w'.
Proof.
  intros Hup. induction n as [| n IH]; intros w Hidle.
  - exists w. split; [reflexivity | exact Hidle].
  - destruct (loop_idle_in_menu env w Hup Hidle) as [w1 [Hrun1 Hidle1]].
    destruct (IH w1 Hidle1) as [w2 [Hrun2 Hidle2]].
    exists w2. split; [| exact Hidle2].
    cbn [loops]. rewrite (bind_run _ _ _ _ _ _ Hrun1). exact Hrun2.
Qed.

(** X14.  Nothing is posted before a plant is chosen.  For a table of
    at least one profile and an environment in which SELECT is never
    read down, [setup] followed by any number of passes of [loop]
    returns in the menu, with the post timer still at 0, having made no
    HTTP write and written no line to the serial port; the index is
    within the table, wherever UP and DOWN have moved it. *)
Theorem nothing_is_posted_before_selection
    (env : Env) (profiles : list PlantProfile) (n : nat) :
  1 <= Z.of_nat (List.length profiles) <= 2 ^ 30 ->
  (forall k, digitalRead_at env k BUTTON_SELECT_PIN = HIGH) ->
  exists w',
    run n env (boot profiles) = Ok tt w' /\
    mode (vars w') = Selecting /\
    lastConnectionTime (vars w') = 0 /\
    index_ok (vars w') /\
    count is_post (trace w') = 0%nat /\
    count is_log (trace w') = 0%nat.
Proof.
  intros Hsize Hup.
  destruct (setup_trace env (boot profiles)) as [w1 [Hrun1 [Hv1 Htrace1]]].
  assert (pressed env (reads (boot profiles)) BUTTON_SELECT_PIN = false)
    as Hsel by (unfold pressed; rewrite Hup; reflexivity).
  rewrite Hsel in Hv1.
  assert (idle_in_menu w1) as Hidle1.
  { split; [rewrite Hv1; apply (Inv_initial_globals profiles Hsize) |].
    rewrite Hv1, Htrace1. cbn [boot trace]. rewrite app_nil_r.
    split; [reflexivity |]. split; [reflexivity |].
    split; apply count_setup_events; auto with sketch. }
  destruct (loops_idle_in_menu env n Hup w1 Hidle1)
    as [w2 [Hrun2 [HI [Hm [Hlast [Hpost Hlog]]]]]].
  exists w2. unfold run. rewrite (bind_run _ _ _ _ _ _ Hrun1).
  split; [exact Hrun2 |]. split; [exact Hm |]. split; [exact Hlast |].
  split; [apply HI |]. split; assumption.
Qed.

Lemma nothing_is_posted_before_selection_witness :
  exists w',
    run 6 (bench (fun _ => 90000) (held BUTTON_UP_PIN) DEGREES_22_5
                 WL_DISCONNECTED 200)
        (boot [basil; fern]) = Ok tt w' /\
    mode (vars w') = Selecting /\
    count is_post (trace w') = 0%nat.
Proof.
  assert (1 <= Z.of_nat (List.length [basil; fern]) <= 2 ^ 30) as Hsize
    by (cbn; lia).
  destruct (nothing_is_posted_before_selection
              (bench (fun _ => 90000) (held BUTTON_UP_PIN) DEGREES_22_5
                     WL_DISCONNECTED 200)
              [basil; fern] 6 Hsize (fun _ => eq_refl))
    as [w' [Hrun [Hm [_ [_ [Hpost _]]]]]].
  exists w'. split; [exact Hrun |]. split; [exact Hm | exact Hpost].
Defined.

(** ** SELECT held down *)

(** X15.  The buttons are read as levels, not as edges.  With SELECT
    held down through two passes that start in the menu, the first pass
    enters monitoring mode and the second, whether or not it runs a
    cycle, returns to the menu with the same index: the mode alternates
    for as long as the button is held. *)
Theorem select_held_alternates_mode (env : Env) (w : World) :
  Inv (vars w) ->
  mode (vars w) = Selecting ->
  (forall k, digitalRead_at env k BUTTON_SELECT_PIN = LOW) ->
  exists w1 w2,
    loop env w = Ok tt w1 /\
    mode (vars w1) = Monitoring /\
    loop env w1 = Ok tt w2 /\
    mode (vars w2) = Selecting /\
    selectedPlantIndex (vars w2) = selectedPlantIndex (vars w1) /\
    Inv (vars w2).
Proof.
  intros HI Hm Hheld.
  assert (forall k, pressed env k BUTTON_SELECT_PIN = true) as Hpressed
    by (intros k; unfold pressed; rewrite Hheld; reflexivity).
  destruct (select_press_enters_monitoring env w HI Hm (Hpressed _))
    as [w1 [Hrun1 [Hm1 [_ [_ HI1]]]]].
  destruct (selected_profile_some _ HI1) as [p Hp].
  exists w1, (monitoring_pass_world env w1 p).
  split; [exact Hrun1 |]. split; [exact Hm1 |].
  split; [apply loop_monitoring_run; (assumption || apply HI1) |].
  rewrite vars_monitoring_pass_world. cbv zeta. rewrite Hpressed.
  split.
  { apply mode_returned. destruct (cycle_due env w1); exact Hm1. }
  split; [destruct (cycle_due env w1); reflexivity |].
  destruct (cycle_due env w1); exact HI1.
Qed.

Lemma select_held_alternates_mode_witness :
  exists w1 w2,
    loop (bench (fun _ => 5000) (held BUTTON_SELECT_PIN) DEGREES_22_5
                WL_CONNECTED 200)
         (garden false 0) = Ok tt w1 /\
    mode (vars w1) = Monitoring /\
    loop (bench (fun _ => 5000) (held BUTTON_SELECT_PIN) DEGREES_22_5
                WL_CONNECTED 200) w1 = Ok tt w2 /\
    mode (vars w2) = Selecting.
Proof.
  assert (Inv (vars (garden false 0))) as HI.
  { split; [split; [reflexivity | cbn; lia] | unfold index_ok; cbn; lia]. }
  destruct (select_held_alternates_mode
              (bench (fun _ => 5000) (held BUTTON_SELECT_PIN) DEGREES_22_5
                     WL_CONNECTED 200)
              (garden false 0) HI eq_refl (fun _ => eq_refl))
    as [w1 [w2 [Hrun1 [Hm1 [Hrun2 [Hm2 _]]]]]].
  exists w1, w2. repeat split; assumption.
Defined.

(** ** How long a pass blocks *)

Lemma delay_total_selection_events env w :
  0 <= delay_total (selection_events env w) <= 2400.
Proof.
  unfold selection_events.
  destruct (pressed env (S (S (reads w))) BUTTON_SELECT_PIN);
    destruct (pressed env (S (reads w)) BUTTON_DOWN_PIN);
    destruct (pressed env (reads w) BUTTON_UP_PIN);
    cbn; lia.
Qed.

(** X16.  Every pass of [loop] returns, and the time it spends in
    [delay] is bounded: exactly 250 ms in calibration mode, at most
    2400 ms in the menu (200 for UP, 200 for DOWN, 2000 for SELECT) and
    at most 11500 ms while monitoring (11000 for a connection attempt,
    500 for the return to the menu); a monitoring pass in which no cycle
    is due and SELECT is up does not wait at all. *)
Theorem loop_pass_blocks_for_bounded_time (env : Env) (w : World) :
  Inv (vars w) ->
  exists w',
    loop env w = Ok tt w' /\
    0 <= delay_total (since w w') <= 11500 /\
    (mode (vars w) = Calibration -> delay_total (since w w') = 250) /\
    (mode (vars w) = Selecting -> delay_total (since w w') <= 2400) /\
    (mode (vars w) = Monitoring ->
     cycle_due env w = false ->
     pressed env (pred (reads w')) BUTTON_SELECT_PIN = false ->
     since w w' = []).
Proof.
  intros HI. pose proof HI as [Ht Hi].
  destruct (mode (vars w)) eqn:Hm.
  - eexists. split; [apply loop_calibration_run, Hm |].
    rewrite (since_app
               (calibration_pass_events
                  (Int32.to_signed
                     (analogRead_at env (reads w) SOIL_SENSOR_PIN))))
      by reflexivity.
    change (delay_total (calibration_pass_events _)) with 250.
    repeat split; intros; (lia || discriminate).
  - destruct (selectionScreen_events env w Ht Hi) as [w' [Hrun Hsince]].
    exists w'. rewrite loop_selecting by exact Hm.
    split; [exact Hrun |]. rewrite Hsince.
    pose proof (delay_total_selection_events env w).
    repeat split; intros; (lia || discriminate).
  - destruct (selected_profile_some _ HI) as [p Hp].
    exists (monitoring_pass_world env w p).
    split; [apply loop_monitoring_run; (assumption || apply Hi) |].
    rewrite since_monitoring_pass.
    assert (reads (monitoring_pass_world env w p)
            = S (reads (before_select env w p))) as Hreads.
    { unfold monitoring_pass_world.
      destruct (pressed env (reads (before_select env w p))
                        BUTTON_SELECT_PIN); reflexivity. }
    rewrite Hreads. cbn [pred].
    rewrite delay_total_app.
    assert (0 <= delay_total (pass_return_events env w p) <= 500) as Hret.
    { unfold pass_return_events.
      destruct (pressed env (reads (before_select env w p))
                        BUTTON_SELECT_PIN); cbn; lia. }
    assert (0 <= delay_total (pass_cycle_events env w p) <= 11000) as Hcyc.
    { unfold pass_cycle_events. destruct (cycle_due env w); [| cbn; lia].
      rewrite delay_total_app, delay_total_cycle_events.
      pose proof (delay_total_reconnect_events env (clock_read w)). lia. }
    split; [lia |]. split; [discriminate |]. split; [discriminate |].
    intros _ Hdue Hsel.
    unfold pass_return_events, pass_cycle_events.
    rewrite Hdue, Hsel. reflexivity.
Qed.

Lemma loop_pass_blocks_for_bounded_time_witness :
  exists w',
    loop (bench (fun _ => 40000) released DEGREES_22_5 WL_DISCONNECTED 200)
         (garden true 0) = Ok tt w' /\
    0 <= delay_total (since (garden true 0) w') <= 11500.
Proof.
  assert (Inv (vars (garden true 0))) as HI.
  { split; [split; [reflexivity | cbn; lia] | unfold index_ok; cbn; lia]. }
  destruct (loop_pass_blocks_for_bounded_time
              (bench (fun _ => 40000) released DEGREES_22_5
                     WL_DISCONNECTED 200)
              (garden true 0) HI) as [w' [Hrun [Hbound _]]].
  exists w'. split; [exact Hrun | exact Hbound].
Defined.

(** ** The first cycle after a selection *)

(** X17.  A SELECT press in the menu is followed by a cycle on the very
    next pass exactly when that pass reads the clock strictly between 0
    and 2^32 - 30000.  The cycle then restarts the timer from its own
    clock reading, and with valid readings it makes one HTTP write, to
    the channel of the profile that was confirmed. *)
Theorem first_cycle_follows_selection (env : Env) (w : World) :
  Inv (vars w) ->
  mode (vars w) = Selecting ->
  pressed env (S (S (reads w))) BUTTON_SELECT_PIN = true ->
  exists w1 w2 p,
    loop env w = Ok tt w1 /\
    selected_profile (vars w1) = Some p /\
    loop env w1 = Ok tt w2 /\
    (count is_log (since w1 w2) = 1%nat <->
     0 < tick_clock env w1 < Int32.modulus - 30000) /\
    (0 < tick_clock env w1 < Int32.modulus - 30000 ->
     lastConnectionTime (vars w2)
     = Int32.to_signed (tick_clock env (clock_read w1)) /\
     (dht_failed env (clock_read w1) = false ->
      count is_post (since w1 w2) = 1%nat /\
      In (ThingSpeakWriteFields (channelID p) (apiKey p)) (since w1 w2))).
Proof.
  intros HI Hm Hsel.
  destruct (select_press_enters_monitoring env w HI Hm Hsel)
    as [w1 [Hrun1 [Hm1 [Hlast [_ HI1]]]]].
  destruct (selected_profile_some _ HI1) as [p Hp].
  exists w1, (monitoring_pass_world env w1 p), p.
  split; [exact Hrun1 |]. split; [exact Hp |].
  split; [apply loop_monitoring_run; (assumption || apply HI1) |].
  rewrite count_is_log_pass, count_is_post_pass,
    lastConnectionTime_monitoring_pass, since_monitoring_pass.
  pose proof (postingDue_after_select (tick_clock env w1)
                (Int32Facts.to_unsigned_range _)) as Hdue.
  unfold cycle_due, pass_cycle_events, cycle_due. rewrite Hlast.
  destruct (postingDue (tick_clock env w1) (- postingInterval)).
  - pose proof (proj1 Hdue eq_refl) as Hrange.
    split; [tauto |]. intros _. split; [reflexivity |].
    intros Hok. rewrite Hok. split; [reflexivity |].
    apply in_or_app. right. apply in_or_app. left.
    unfold cycle_events. rewrite Hok. unfold report_events. cbn. tauto.
  - split; [| intros Hrange; apply Hdue in Hrange; discriminate].
    split; [discriminate |].
    intros Hrange. apply Hdue in Hrange. discriminate.
Qed.

Lemma first_cycle_follows_selection_witness :
  exists w1 w2 p,
    loop (bench (fun _ => 5000) (pressed_at 2 BUTTON_SELECT_PIN)
                DEGREES_22_5 WL_CONNECTED 200)
         (garden false 0) = Ok tt w1 /\
    selected_profile (vars w1) = Some p /\
    loop (bench (fun _ => 5000) (pressed_at 2 BUTTON_SELECT_PIN)
                DEGREES_22_5 WL_CONNECTED 200) w1 = Ok tt w2 /\
    count is_log (since w1 w2) = 1%nat.
Proof.
  assert (Inv (vars (garden false 0))) as HI.
  { split; [split; [reflexivity | cbn; lia] | unfold index_ok; cbn; lia]. }
  destruct (first_cycle_follows_selection
              (bench (fun _ => 5000) (pressed_at 2 BUTTON_SELECT_PIN)
                     DEGREES_22_5 WL_CONNECTED 200)
              (garden false 0) HI eq_refl eq_refl)
    as [w1 [w2 [p [Hrun1 [Hp [Hrun2 [Hlog _]]]]]]].
  exists w1, w2, p.
  split; [exact Hrun1 |]. split; [exact Hp |]. split; [exact Hrun2 |].
  apply Hlog.
  assert (Ok tt w1
          = loop (bench (fun _ => 5000) (pressed_at 2 BUTTON_SELECT_PIN)
                        DEGREES_22_5 WL_CONNECTED 200) (garden false 0))
    as E by (symmetry; exact Hrun1).
  vm_compute in E. injection E as ->.
  vm_compute. split; reflexivity.
Defined.
